(** * AI study assistant: document ingestion and inference pipeline

    A shallow embedding of [src/app_production.py]: the text extraction of
    [DocumentProcessor], the cached model loading of [AIModels], and the
    three task bodies of [StudyAssistantApp] (question answering,
    summarization, quiz generation), with the properties the specification
    states about them. *)

From Stdlib Require Import List Arith Lia Bool NArith ZArith QArith.
From Stdlib Require String Ascii.
From Stdlib Require PrimFloat FloatOps SpecFloat Uint63.
Import String.StringSyntax.
Delimit Scope string_scope with string.
Import ListNotations.

Set Implicit Arguments.
Set Warnings "-abstract-large-number".
Open Scope nat_scope.
Open Scope list_scope.

(** ** Python values used by the program *)

Module Py.

(** A Python [str] is a sequence of Unicode code points. *)
Definition char := N.
Definition str := list char.

(** A [bytes] object. *)
Definition bytes := list N.

(** String literals of the source, written as Rocq strings. *)
Definition lit (s : String.string) : str :=
  List.map Ascii.N_of_ascii (String.list_ascii_of_string s).
Arguments lit s%_string.

Definition newline : str := [10%N].
Definition space : str := [32%N].
Definition dot : char := 46%N.

(** The result of calling into Python code that may raise.  [exn] stands
    for an instance of [Exception], the class caught by the program's
    [except Exception as e] handlers. *)
Definition exn := str.

Inductive outcome (A : Type) : Type :=
| Returns (a : A)
| Raises (e : exn).
Arguments Returns {A} a.
Arguments Raises {A} e.

Definition bind {A B} (m : outcome A) (k : A -> outcome B) : outcome B :=
  match m with
  | Returns a => k a
  | Raises e => Raises e
  end.

(** [try: return m' except Exception as e: st.error(..); return None] *)
Definition try_or_None {A} (m : outcome A) : option A :=
  match m with
  | Returns a => Some a
  | Raises _ => None
  end.

(** Truthiness of a [str]: the empty string is false. *)
Definition truthy (s : str) : bool :=
  match s with
  | [] => false
  | _ :: _ => true
  end.

(** Truthiness of a value that is [None] or a [str]. *)
Definition truthy_opt (o : option str) : bool :=
  match o with
  | None => false
  | Some s => truthy s
  end.

(** [s[i:j]] for non-negative [i], [j]: both ends are clipped to the
    length of [s]. *)
Definition slice {A} (s : list A) (i j : nat) : list A :=
  firstn (j - i) (skipn i s).

(** [range(start, stop, step)] for [step >= 1]: the values
    [start + k*step] below [stop]. *)
Definition range (start stop step : nat) : list nat :=
  List.map (fun k => start + k * step)
           (seq 0 ((stop - start + step - 1) / step)).

(** [sep.join(parts)] *)
Fixpoint join (sep : str) (parts : list str) : str :=
  match parts with
  | [] => []
  | [p] => p
  | p :: rest => p ++ sep ++ join sep rest
  end.

(** [Py_UNICODE_ISSPACE]: the code points that [str.split()] and
    [str.strip()] treat as whitespace. *)
Definition isspace (c : char) : bool :=
  ((9 <=? c) && (c <=? 13) || (28 <=? c) && (c <=? 32)
   || (c =? 133) || (c =? 160) || (c =? 5760)
   || (8192 <=? c) && (c <=? 8202)
   || (c =? 8232) || (c =? 8233) || (c =? 8239) || (c =? 8287)
   || (c =? 12288))%N.

(** [s.split()]: the maximal runs of non-whitespace characters.  [cur]
    holds the current run, reversed. *)
Fixpoint split_ws_from (cur : str) (s : str) : list str :=
  match s with
  | [] => match cur with [] => [] | _ => [rev cur] end
  | c :: s' =>
      if isspace c
      then match cur with
           | [] => split_ws_from [] s'
           | _ => rev cur :: split_ws_from [] s'
           end
      else split_ws_from (c :: cur) s'
  end.

Definition split_ws (s : str) : list str := split_ws_from [] s.

(** [s.split(sep)] for a one-character separator: every occurrence of
    [sep] ends a piece, empty pieces are kept, and there is always at
    least one piece. *)
Fixpoint split_on (sep : char) (s : str) : list str :=
  match s with
  | [] => [[]]
  | c :: s' =>
      if (c =? sep)%N then [] :: split_on sep s'
      else match split_on sep s' with
           | w :: ws => (c :: w) :: ws
           | [] => [[c]]
           end
  end.

Fixpoint lstrip (s : str) : str :=
  match s with
  | [] => []
  | c :: s' => if isspace c then lstrip s' else s
  end.

(** [s.strip()] *)
Definition strip (s : str) : str := rev (lstrip (rev (lstrip s))).

Fixpoint startswith (s p : str) : bool :=
  match p, s with
  | [], _ => true
  | _ :: _, [] => false
  | a :: p', b :: s' => (a =? b)%N && startswith s' p'
  end.

(** [s.endswith(suffix)] *)
Definition endswith (s suffix : str) : bool :=
  startswith (rev s) (rev suffix).

(** [p in s] for strings: [p] occurs as a substring of [s]. *)
Fixpoint contains (p s : str) : bool :=
  startswith s p ||
  match s with
  | [] => false
  | _ :: s' => contains p s'
  end.

End Py.

Import Py.

(** ** Python floats

    A Python [float] is an IEEE 754 binary64 number.  A finite one is
    written here as the rational number it denotes, and every operation
    gives the exact result rounded to the nearest binary64 number, ties
    to the even significand.  The numbers of the program are quotients
    of string lengths and what is computed from them, far inside the
    range of finite floats. *)

Module Float64.

Local Open Scope Z_scope.

Definition float : Type := Q.

(** The integer [k] with [2^k <= n/d < 2^(k+1)], for positive [n], [d]. *)
Definition floor_log2 (n d : Z) : Z :=
  let k := Z.log2 n - Z.log2 d in
  if (if 0 <=? k then d * 2 ^ k <=? n else d <=? n * 2 ^ (- k))
  then k else k - 1.

(** The integer nearest to [n/d] for [d > 0], a tie going to the even
    one. *)
Definition round_half_even (n d : Z) : Z :=
  let q := n / d in
  let r := n mod d in
  match 2 * r ?= d with
  | Lt => q
  | Gt => q + 1
  | Eq => if Z.even q then q else q + 1
  end.

(** The binary64 number nearest to [n/d] for positive [n], [d]: a
    significand of 53 bits, the exponent not below that of the
    subnormal numbers. *)
Definition nearest_pos (n d : Z) : Q :=
  let e := Z.max (floor_log2 n d - 52) (-1074) in
  if 0 <=? e
  then inject_Z (round_half_even n (d * 2 ^ e) * 2 ^ e)
  else Qmake (round_half_even (n * 2 ^ (- e)) d) (Z.to_pos (2 ^ (- e))).

Definition nearest (q : Q) : float :=
  let q := Qred q in
  match Qnum q with
  | Z0 => 0%Q
  | Zpos _ => Qred (nearest_pos (Qnum q) (Zpos (Qden q)))
  | Zneg _ => Qred (Qopp (nearest_pos (- Qnum q) (Zpos (Qden q))))
  end.

(** [a / b] for two ints (here lengths): the quotient of the integers,
    correctly rounded.  The program divides by [len(text_content)]
    only under [if text_content:], where it is not 0. *)
Definition true_divide (a b : nat) : float :=
  nearest (inject_Z (Z.of_nat a) / inject_Z (Z.of_nat b)).

(** [x - y] and [x * y] for floats. *)
Definition sub (x y : float) : float := nearest (x - y).
Definition mul (x y : float) : float := nearest (x * y).

Fixpoint digits (u : Decimal.uint) : str :=
  match u with
  | Decimal.Nil => []
  | Decimal.D0 u => 48%N :: digits u
  | Decimal.D1 u => 49%N :: digits u
  | Decimal.D2 u => 50%N :: digits u
  | Decimal.D3 u => 51%N :: digits u
  | Decimal.D4 u => 52%N :: digits u
  | Decimal.D5 u => 53%N :: digits u
  | Decimal.D6 u => 54%N :: digits u
  | Decimal.D7 u => 55%N :: digits u
  | Decimal.D8 u => 56%N :: digits u
  | Decimal.D9 u => 57%N :: digits u
  end.

(** The decimal digits of a non-negative integer. *)
Definition decimal (n : Z) : str := digits (N.to_uint (Z.to_N n)).

(** [f"{x:.1f}"]: the exact value of [x] rounded to one decimal place,
    a tie going to the even digit, with a minus sign for a negative
    [x] even when the digits are all 0. *)
Definition format_1f (x : float) : str :=
  let tenths := round_half_even (Z.abs (Qnum x) * 10) (Zpos (Qden x)) in
  ((if Qnum x <? 0 then lit "-" else [])
   ++ decimal (tenths / 10) ++ lit "." ++ decimal (tenths mod 10))%list.

End Float64.

(** Rocq's primitive floats are binary64 numbers with the operations of
    the processor.  They are used only to check [Float64] on examples:
    [exact f] is the rational number the float [f] denotes. *)

Module KernelFloat.

Definition exact (f : PrimFloat.float) : option Q :=
  match FloatOps.Prim2SF f with
  | SpecFloat.S754_zero _ => Some 0%Q
  | SpecFloat.S754_finite negative m e =>
      let v := if (0 <=? e)%Z then inject_Z (Zpos m * 2 ^ e)
               else Qmake (Zpos m) (Z.to_pos (2 ^ (- e))) in
      Some (Qred (if negative then Qopp v else v))
  | _ => None
  end.

Definition of_nat (n : nat) : PrimFloat.float :=
  PrimFloat.of_uint63 (Uint63.of_Z (Z.of_nat n)).

(** [(1 - a/b) * 100] on primitive floats. *)
Definition percent_left (a b : nat) : PrimFloat.float :=
  PrimFloat.mul
    (PrimFloat.sub (of_nat 1) (PrimFloat.div (of_nat a) (of_nat b)))
    (of_nat 100).

(** The same on [Float64]. *)
Definition model_percent_left (a b : nat) : Q :=
  Float64.mul (Float64.sub 1%Q (Float64.true_divide a b)) 100%Q.

Definition agree (ab : nat * nat) : bool :=
  match exact (percent_left (fst ab) (snd ab)) with
  | Some q => Qeq_bool q (model_percent_left (fst ab) (snd ab))
  | None => false
  end.

End KernelFloat.

(** ** Summarization windows

    [summarization_interface] cuts the text into pieces before it calls
    the summarizer:
    [chunks = [text_content[i:i+max_input]
               for i in range(0, len(text_content), max_input)]]. *)

Module Chunker.

Definition max_input : nat := 3000.

Definition chunks (max_input : nat) (text_content : str) : list str :=
  List.map (fun i => slice text_content i (i + max_input))
           (range 0 (length text_content) max_input).

(** The reassembly the specification describes: the windows are
    concatenated after [overlap_chars] characters are cut from the front
    of every window but the first.  This follows the specification's
    wording; the program has no such operation. *)
Definition spec_reconstruct (overlap_chars : nat) (windows : list str) : str :=
  match windows with
  | [] => []
  | w :: rest => w ++ concat (List.map (skipn overlap_chars) rest)
  end.

(** The three windows the specification's example lists for a text of
    9000 characters: [0,4000), [3800,7800), [7600,9000). *)
Definition spec_example_windows (text : str) : list str :=
  [slice text 0 4000; slice text 3800 7800; slice text 7600 9000].

(** A text of [n] characters, all different: character [k] is the code
    point [k]. *)
Definition numbered_text (n : nat) : str := List.map N.of_nat (seq 0 n).

End Chunker.

(** ** DocumentProcessor: text extraction *)

Module DocumentProcessor.

(** What the program reads of a Streamlit [UploadedFile]: [.name],
    [.type] (the declared MIME type) and the bytes [.read()] returns. *)
Record UploadedFile : Type := {
  name : str;
  type : str;
  content : bytes
}.

(** The library calls of the extraction code.  A PDF reader either raises
    on the container or gives the pages, each page standing for the
    outcome of its [extract_text()]; a DOCX document gives the text of
    its paragraphs. *)
Class Libraries : Type := {
  lower : str -> str;
  PdfReader : bytes -> outcome (list (outcome str));
  Document : bytes -> outcome (list str);
  decode_utf8 : bytes -> outcome str
}.

(** [try: body except Exception as e: handler] *)
Definition try_except {A} (body : outcome A) (handler : exn -> outcome A)
  : outcome A :=
  match body with
  | Returns a => Returns a
  | Raises e => handler e
  end.

(** The loop [for page in pdf_reader.pages:
                text += page.extract_text() + "\n"]
    started with the text accumulated so far. *)
Fixpoint extract_pages (text : str) (pages : list (outcome str)) : outcome str :=
  match pages with
  | [] => Returns text
  | page :: rest =>
      bind page (fun page_text =>
        extract_pages (text ++ (page_text ++ newline)) rest)
  end.

Section Extraction.
Context {libs : Libraries}.

Definition extract_text_from_pdf (file : UploadedFile) : outcome (option str) :=
  try_except
    (bind (PdfReader (content file)) (fun pages =>
     bind (extract_pages [] pages) (fun text =>
     Returns (Some text))))
    (fun _ => Returns None).

Definition extract_text_from_docx (file : UploadedFile) : outcome (option str) :=
  try_except
    (bind (Document (content file)) (fun paragraphs =>
     Returns (Some (join newline paragraphs))))
    (fun _ => Returns None).

Definition extract_text_from_txt (file : UploadedFile) : outcome (option str) :=
  try_except
    (bind (decode_utf8 (content file)) (fun text => Returns (Some text)))
    (fun _ => Returns None).

Definition process_document (uploaded_file : option UploadedFile)
  : outcome (option str) :=
  match uploaded_file with
  | None => Returns None
  | Some uploaded_file =>
      let file_type := type uploaded_file in
      let file_name := lower (name uploaded_file) in
      if contains (lit "pdf") file_type || endswith file_name (lit ".pdf")
      then extract_text_from_pdf uploaded_file
      else if contains (lit "word") file_type || endswith file_name (lit ".docx")
      then extract_text_from_docx uploaded_file
      else if contains (lit "text") file_type || endswith file_name (lit ".txt")
      then extract_text_from_txt uploaded_file
      else Returns None
  end.

(** The value a caller holds after [text = process_document(f)]; a raised
    exception would leave the caller without one. *)
Definition returned {A} (r : outcome (option A)) : option A :=
  match r with
  | Returns v => v
  | Raises _ => None
  end.

End Extraction.

(** The branch of [process_document] a file takes: the first of PDF,
    DOCX, TXT that its declared type or its lower-cased name matches. *)
Inductive format : Type := PDF | DOCX | TXT.

Definition format_of {libs : Libraries} (f : UploadedFile) : option format :=
  if contains (lit "pdf") (type f) || endswith (lower (name f)) (lit ".pdf")
  then Some PDF
  else if contains (lit "word") (type f) || endswith (lower (name f)) (lit ".docx")
  then Some DOCX
  else if contains (lit "text") (type f) || endswith (lower (name f)) (lit ".txt")
  then Some TXT
  else None.

Definition raises {A} (m : outcome A) : bool :=
  match m with
  | Raises _ => true
  | Returns _ => false
  end.

(** A library call made while the file is extracted raises: the reader
    rejects the container, some page fails to extract, or the bytes are
    not UTF-8. *)
Definition extraction_fails {libs : Libraries} (f : UploadedFile) : bool :=
  match format_of f with
  | Some PDF =>
      match PdfReader (content f) with
      | Raises _ => true
      | Returns pages => existsb raises pages
      end
  | Some DOCX => raises (Document (content f))
  | Some TXT => raises (decode_utf8 (content f))
  | None => false
  end.

(** *** A concrete library environment

    Strict UTF-8 decoding as [bytes.decode('utf-8')] performs it, ASCII
    lower-casing, and readers that hand back prepared pages and
    paragraphs. *)

Definition continuation (b : N) : bool := ((128 <=? b) && (b <=? 191))%N.

Definition undecodable : exn := lit "'utf-8' codec can't decode bytes".

Fixpoint utf8_decode (b : bytes) : outcome str :=
  match b with
  | [] => Returns []
  | b1 :: r1 =>
      if (b1 <? 128)%N then
        bind (utf8_decode r1) (fun s => Returns (b1 :: s))
      else if ((194 <=? b1) && (b1 <=? 223))%N then
        match r1 with
        | b2 :: r2 =>
            if continuation b2
            then bind (utf8_decode r2) (fun s =>
                   Returns (((b1 - 192) * 64 + (b2 - 128))%N :: s))
            else Raises undecodable
        | _ => Raises undecodable
        end
      else if ((224 <=? b1) && (b1 <=? 239))%N then
        match r1 with
        | b2 :: b3 :: r3 =>
            if (continuation b2 && continuation b3
                && (negb (b1 =? 224) || (160 <=? b2))
                && (negb (b1 =? 237) || (b2 <=? 159)))%N
            then bind (utf8_decode r3) (fun s =>
                   Returns (((b1 - 224) * 4096 + (b2 - 128) * 64
                             + (b3 - 128))%N :: s))
            else Raises undecodable
        | _ => Raises undecodable
        end
      else if ((240 <=? b1) && (b1 <=? 244))%N then
        match r1 with
        | b2 :: b3 :: b4 :: r4 =>
            if (continuation b2 && continuation b3 && continuation b4
                && (negb (b1 =? 240) || (144 <=? b2))
                && (negb (b1 =? 244) || (b2 <=? 143)))%N
            then bind (utf8_decode r4) (fun s =>
                   Returns (((b1 - 240) * 262144 + (b2 - 128) * 4096
                             + (b3 - 128) * 64 + (b4 - 128))%N :: s))
            else Raises undecodable
        | _ => Raises undecodable
        end
      else Raises undecodable
  end.

Definition ascii_lower (s : str) : str :=
  List.map (fun c => if ((65 <=? c) && (c <=? 90))%N then (c + 32)%N else c) s.

Definition reader_of (pages : outcome (list (outcome str)))
  (paragraphs : outcome (list str)) : Libraries :=
  {| lower := ascii_lower;
     PdfReader := fun _ => pages;
     Document := fun _ => paragraphs;
     decode_utf8 := utf8_decode |}.

Definition corrupt : exn := lit "corrupt container".

(** An environment in which every PDF and DOCX container is unreadable. *)
Definition plain_text_only : Libraries :=
  reader_of (Raises corrupt) (Raises corrupt).

End DocumentProcessor.

(** ** AIModels: cached model loading *)

Module AIModels.

(** The result of the question-answering pipeline: the fields the program
    reads, [result['answer']] and [result['score']]. *)
Record qa_result : Type := {
  answer : str;
  score : Q
}.

(** The dictionary [load_models] returns.  Each entry is the call the
    program makes on it: [summarizer(chunk, max_length, min_length)]
    read at [[0]['summary_text']], [qa(question, context)], and
    [quiz_gen(prompt, max_length)] read at [[0]['generated_text']]. *)
Record model_dict : Type := {
  summarizer : str -> nat -> nat -> outcome str;
  qa : str -> str -> outcome qa_result;
  embedder : str -> outcome (list Q);
  quiz_gen : str -> nat -> outcome str
}.

(** What the four constructor calls of one run of [load_models] do. *)
Record provider : Type := {
  summarization_pipeline : outcome (str -> nat -> nat -> outcome str);
  question_answering_pipeline : outcome (str -> str -> outcome qa_result);
  SentenceTransformer : outcome (str -> outcome (list Q));
  text2text_generation_pipeline : outcome (str -> nat -> outcome str)
}.

(** The process: the entry [st.cache_resource] keeps for [load_models]
    (the function takes no hashed argument, so there is one entry), and
    the number of times the function body has run.  The cache stores the
    value the body returned, whatever it is; [None] is a value. *)
Record process : Type := {
  cache_resource : option (option model_dict);
  body_runs : nat
}.

Definition fresh_process : process :=
  {| cache_resource := None; body_runs := 0 |}.

Section Loading.
(** [MODELS_AVAILABLE] is fixed when the module is imported; [world n]
    is what the constructors do when the body runs for the [n]-th time
    (counting from 0). *)
Variable MODELS_AVAILABLE : bool.
Variable world : nat -> provider.

(** The body of [load_models]. *)
Definition load_models_body (pr : provider) : option model_dict :=
  if negb MODELS_AVAILABLE then None
  else
    try_or_None
      (bind (summarization_pipeline pr) (fun s =>
       bind (question_answering_pipeline pr) (fun q =>
       bind (SentenceTransformer pr) (fun e =>
       bind (text2text_generation_pipeline pr) (fun g =>
       Returns {| summarizer := s; qa := q; embedder := e; quiz_gen := g |}))))).

(** [load_models] as decorated with [@st.cache_resource]. *)
Definition load_models (p : process) : option model_dict * process :=
  match cache_resource p with
  | Some value => (value, p)
  | None =>
      let value := load_models_body (world (body_runs p)) in
      (value, {| cache_resource := Some value; body_runs := S (body_runs p) |})
  end.

(** [n] calls of [load_models] in a row: the value of the last call and
    the process after it. *)
Fixpoint load_models_times (n : nat) (p : process) : option model_dict * process :=
  match n with
  | 0 => load_models p
  | S n' => load_models_times n' (snd (load_models p))
  end.

End Loading.

(** *** Stand-ins for the pre-trained models *)

Definition demo_summarizer (chunk : str) (max_length min_length : nat) : outcome str :=
  Returns (firstn 12 chunk).

Definition demo_qa (confidence : Q) (question context : str) : outcome qa_result :=
  Returns {| answer := firstn 8 context; score := confidence |}.

Definition demo_quiz_gen (prompt : str) (max_length : nat) : outcome str :=
  Returns (prompt ++ lit "?").

Definition demo_models (confidence : Q) : model_dict :=
  {| summarizer := demo_summarizer;
     qa := demo_qa confidence;
     embedder := fun _ => Returns [];
     quiz_gen := demo_quiz_gen |}.

Definition working_provider : provider :=
  {| summarization_pipeline := Returns demo_summarizer;
     question_answering_pipeline := Returns (demo_qa (9 # 10));
     SentenceTransformer := Returns (fun _ => Returns []);
     text2text_generation_pipeline := Returns demo_quiz_gen |}.

Definition connection_error : exn := lit "connection error".

Definition offline_provider : provider :=
  {| summarization_pipeline := Raises connection_error;
     question_answering_pipeline := Returns (demo_qa (9 # 10));
     SentenceTransformer := Returns (fun _ => Returns []);
     text2text_generation_pipeline := Returns demo_quiz_gen |}.

(** The first run of the loader finds the network down; from the second
    run on the models can be constructed. *)
Definition down_then_up (n : nat) : provider :=
  match n with
  | 0 => offline_provider
  | S _ => working_provider
  end.

End AIModels.

(** ** StudyAssistantApp: session state and the three tasks *)

Module StudyAssistantApp.

Import DocumentProcessor AIModels.

Record session_state : Type := {
  models : option model_dict;
  current_document : option str;
  document_text : option str
}.

(** The state [__init__] sets up for a new session. *)
Definition new_session : session_state :=
  {| models := None; current_document := None; document_text := None |}.

Definition with_models (s : session_state) (m : option model_dict) : session_state :=
  {| models := m;
     current_document := current_document s;
     document_text := document_text s |}.

(** The model loading section of [main]: the button is drawn only while
    the session holds no models. *)
Definition sidebar (MODELS_AVAILABLE : bool) (world : nat -> provider)
  (initialize_clicked : bool) (s : session_state) (p : process)
  : session_state * process :=
  match models s with
  | None =>
      if MODELS_AVAILABLE && initialize_clicked
      then let (value, p') := load_models MODELS_AVAILABLE world p in
           (with_models s value, p')
      else (s, p)
  | Some _ => (s, p)
  end.

Definition str_eqb (a b : str) : bool :=
  if list_eq_dec N.eq_dec a b then true else false.

(** [st.session_state.current_document != uploaded_file.name] *)
Definition differs (current : option str) (file_name : str) : bool :=
  match current with
  | None => true
  | Some c => negb (str_eqb c file_name)
  end.

Definition Qltb (x y : Q) : bool := negb (Qle_bool y x).

(** *** Question answering *)

Definition max_context : nat := 2000.

(** The float the literal [0.3] denotes. *)
Definition low_confidence : Q := 5404319552844595 # 18014398509481984.

(** What the page shows below the uploader. *)
Inductive qa_view : Type :=
| ModelsNotInitialized
| AwaitingUpload
| NoDocumentText
| AwaitingQuestion
| Answered (answer : str) (confidence : Q) (low_confidence_warning : bool)
| AnswerError (e : exn)
| Uncaught (e : exn).

(** One run of [question_answering_interface]: the session state it
    leaves, whether it called [process_document], the
    [(question, context)] pairs it passed to the model, and the page. *)
Record qa_run : Type := {
  state_after : session_state;
  extracted : bool;
  dispatched : list (str * str);
  view : qa_view
}.

Section Tasks.
Context {libs : Libraries}.

(** The answer block under [if question and st.button(..)]. *)
Definition get_answer (m : model_dict) (text question : str)
  : list (str * str) * qa_view :=
  let context := slice text 0 max_context in
  ([(question, context)],
   match qa m question context with
   | Returns result =>
       Answered (answer result) (score result)
                (Qltb (score result) low_confidence)
   | Raises e => AnswerError e
   end).

(** The block under [if st.session_state.document_text:]. *)
Definition question_input (m : model_dict) (s : session_state)
  (question : str) (get_answer_clicked : bool) : list (str * str) * qa_view :=
  match document_text s with
  | Some text =>
      if truthy text then
        if truthy question && get_answer_clicked
        then get_answer m text question
        else ([], AwaitingQuestion)
      else ([], NoDocumentText)
  | None => ([], NoDocumentText)
  end.

(** [if text: st.session_state.document_text = text;
             st.session_state.current_document = uploaded_file.name] *)
Definition after_processing (s : session_state) (f : UploadedFile)
  (text : option str) : session_state :=
  match text with
  | Some t =>
      if truthy t
      then {| models := models s;
              current_document := Some (name f);
              document_text := Some t |}
      else s
  | None => s
  end.

Definition question_answering_interface (s : session_state)
  (uploaded_file : option UploadedFile) (question : str)
  (get_answer_clicked : bool) : qa_run :=
  match models s with
  | None =>
      {| state_after := s; extracted := false; dispatched := [];
         view := ModelsNotInitialized |}
  | Some m =>
      match uploaded_file with
      | None =>
          {| state_after := s; extracted := false; dispatched := [];
             view := AwaitingUpload |}
      | Some f =>
          if differs (current_document s) (name f) then
            match process_document (Some f) with
            | Raises e =>
                {| state_after := s; extracted := true; dispatched := [];
                   view := Uncaught e |}
            | Returns text =>
                let s' := after_processing s f text in
                let (calls, page) := question_input m s' question get_answer_clicked in
                {| state_after := s'; extracted := true; dispatched := calls;
                   view := page |}
            end
          else
            let (calls, page) := question_input m s question get_answer_clicked in
            {| state_after := s; extracted := false; dispatched := calls;
               view := page |}
      end
  end.

(** A session in which the files [files] are uploaded one after the
    other on the question-answering page, no question asked: the final
    state, and for each upload whether it was extracted. *)
Fixpoint upload_all (s : session_state) (files : list UploadedFile)
  : session_state * list bool :=
  match files with
  | [] => (s, [])
  | f :: rest =>
      let r := question_answering_interface s (Some f) [] false in
      let (s', flags) := upload_all (state_after r) rest in
      (s', extracted r :: flags)
  end.

(** The identity the specification gives a document: the file name with
    the content hash.  The content itself stands for a hash without
    collisions. *)
Definition spec_identity (f : UploadedFile) : str * bytes :=
  (name f, content f).

(** *** Summarization *)

Definition chunk_limit : nat := 3.
Definition substantial_words : nat := 50.

(** The two ways the page obtains [text_content]. *)
Inductive input_method : Type :=
| UploadFile (uploaded_file : option UploadedFile)
| PasteText (text_area : str).

Inductive summary_view : Type :=
| SummaryModelsNotInitialized
| AwaitingText
| AwaitingGenerate
| Summary (final_summary : str) (original_words summary_words : nat)
          (compression_shown : str)
| SummaryError (e : exn)
| SummaryUncaught (e : exn).

(** One run of [summarization_interface]: the chunks passed to the
    summarizer, in call order, and the page. *)
Record summary_run : Type := {
  summarized : list str;
  summary_page : summary_view
}.

(** [len(chunk.split()) > 50] *)
Definition substantial (chunk : str) : bool :=
  substantial_words <? length (split_ws chunk).

(** The loop over [chunks[:3]]; [summaries] is the list built so far.
    The result pairs the chunks the summarizer was called on with the
    final [summaries], or with the exception that ended the loop. *)
Fixpoint summarize_chunks (summarizer : str -> nat -> nat -> outcome str)
  (max_length min_length : nat) (summaries : list str) (chunks : list str)
  : list str * outcome (list str) :=
  match chunks with
  | [] => ([], Returns summaries)
  | chunk :: rest =>
      if substantial chunk then
        match summarizer chunk max_length min_length with
        | Returns summary =>
            let (calls, result) :=
              summarize_chunks summarizer max_length min_length
                               (summaries ++ [summary]) rest in
            (chunk :: calls, result)
        | Raises e => ([chunk], Raises e)
        end
      else summarize_chunks summarizer max_length min_length summaries rest
  end.

(** [compression = (1 - len(final_summary)/len(text_content)) * 100] *)
Definition compression (final_summary text_content : str) : Float64.float :=
  Float64.mul
    (Float64.sub 1%Q
       (Float64.true_divide (length final_summary) (length text_content)))
    100%Q.

(** The value of the "Compression" metric: [f"{compression:.1f}%"]. *)
Definition compression_metric (final_summary text_content : str) : str :=
  Float64.format_1f (compression final_summary text_content) ++ lit "%".



(** The block under [if st.button("Generate Summary")]. *)
Definition generate_summary (m : model_dict) (text_content : str)
  (max_length min_length : nat) : summary_run :=
  let chunks := Chunker.chunks Chunker.max_input text_content in
  let (calls, result) :=
    summarize_chunks (summarizer m) max_length min_length []
                     (slice chunks 0 chunk_limit) in
  {| summarized := calls;
     summary_page :=
       match result with
       | Returns summaries =>
           let final_summary := join space summaries in
           Summary final_summary
                   (length (split_ws text_content))
                   (length (split_ws final_summary))
                   (compression_metric final_summary text_content)
       | Raises e => SummaryError e
       end |}.

Definition summarization_interface (s : session_state) (input : input_method)
  (max_length min_length : nat) (generate_clicked : bool) : summary_run :=
  match models s with
  | None => {| summarized := []; summary_page := SummaryModelsNotInitialized |}
  | Some m =>
      let text_content :=
        match input with
        | UploadFile None => Returns (Some [])
        | UploadFile (Some f) => process_document (Some f)
        | PasteText text => Returns (Some text)
        end in
      match text_content with
      | Raises e => {| summarized := []; summary_page := SummaryUncaught e |}
      | Returns text_content =>
          if truthy_opt text_content then
            if generate_clicked
            then generate_summary m (match text_content with
                                     | Some t => t
                                     | None => []
                                     end) max_length min_length
            else {| summarized := []; summary_page := AwaitingGenerate |}
          else {| summarized := []; summary_page := AwaitingText |}
      end
  end.

(** *** Quiz generation *)

Definition min_sentence_words : nat := 5.
Definition prompt_limit : nat := 200.
Definition question_max_length : nat := 50.

(** One rendered question: its number [i], the generated question, and
    the sentence shown under "Reference". *)
Record quiz_item : Type := {
  number : nat;
  question : str;
  reference : str
}.

(** The item rendered for the pair [(i, sentence)] when the generator
    answers [g sentence]. *)
Definition item_of (g : str -> str) (p : nat * str) : quiz_item :=
  {| number := fst p; question := g (snd p); reference := snd p |}.

(** [[s.strip() for s in text_content.split('.') if len(s.split()) > 5]] *)
Definition long_enough (s : str) : bool :=
  min_sentence_words <? length (split_ws s).

Definition sentences (text_content : str) : list str :=
  List.map strip (List.filter long_enough (split_on dot text_content)).

(** The units as the specification describes them: the text split at
    every sentence-terminal punctuation mark, full stop, question mark
    or exclamation mark. *)
Fixpoint spec_split_terminal (s : str) : list str :=
  match s with
  | [] => [[]]
  | c :: s' =>
      if ((c =? 46) || (c =? 63) || (c =? 33))%N
      then [] :: spec_split_terminal s'
      else match spec_split_terminal s' with
           | w :: ws => (c :: w) :: ws
           | [] => [[c]]
           end
  end.

Definition spec_units (text : str) : list str :=
  List.map strip (List.filter long_enough (spec_split_terminal text)).

Definition prompt_of (sentence : str) : str :=
  lit "generate question: " ++ slice sentence 0 prompt_limit.

(** One run of the quiz block: the prompts passed to the generator, the
    questions rendered, and the exception that ended the loop, if any. *)
Record quiz_run : Type := {
  prompts : list str;
  items : list quiz_item;
  failure : option exn
}.

(** The loop [for i, sentence in enumerate(selected_sentences, 1)],
    from number [i] on. *)
Fixpoint quiz_loop (quiz_gen : str -> nat -> outcome str) (i : nat)
  (selected_sentences : list str) : quiz_run :=
  match selected_sentences with
  | [] => {| prompts := []; items := []; failure := None |}
  | sentence :: rest =>
      let prompt := prompt_of sentence in
      match quiz_gen prompt question_max_length with
      | Returns question =>
          let r := quiz_loop quiz_gen (S i) rest in
          {| prompts := prompt :: prompts r;
             items := {| number := i; question := question;
                         reference := sentence |} :: items r;
             failure := failure r |}
      | Raises e => {| prompts := [prompt]; items := []; failure := Some e |}
      end
  end.

(** The block under [if st.button("Generate Quiz")]. *)
Definition generate_quiz (m : model_dict) (text_content : str)
  (num_questions : nat) : quiz_run :=
  let selected_sentences := slice (sentences text_content) 0 num_questions in
  quiz_loop (quiz_gen m) 1 selected_sentences.

Inductive quiz_view : Type :=
| QuizModelsNotInitialized
| QuizAwaitingUpload
| QuizNoText
| QuizAwaitingGenerate
| Quiz (r : quiz_run)
| QuizUncaught (e : exn).

Definition quiz_interface (s : session_state)
  (uploaded_file : option UploadedFile) (num_questions : nat)
  (generate_clicked : bool) : quiz_view :=
  match models s with
  | None => QuizModelsNotInitialized
  | Some m =>
      match uploaded_file with
      | None => QuizAwaitingUpload
      | Some f =>
          match process_document (Some f) with
          | Raises e => QuizUncaught e
          | Returns text_content =>
              match text_content with
              | Some t =>
                  if truthy t then
                    if generate_clicked
                    then Quiz (generate_quiz m t num_questions)
                    else QuizAwaitingGenerate
                  else QuizNoText
              | None => QuizNoText
              end
          end
      end
  end.

End Tasks.

End StudyAssistantApp.

(** ** The script run: [main] *)

Module Main.

Import DocumentProcessor AIModels StudyAssistantApp.

(** The entry of the feature select box, with what the user has entered
    on that page. *)
Inductive feature : Type :=
| Home
| QuestionAnswering (uploaded_file : option UploadedFile) (question : str)
                    (get_answer_clicked : bool)
| QuizGeneration (uploaded_file : option UploadedFile) (num_questions : nat)
                 (generate_clicked : bool)
| TextSummarization (input : input_method) (max_length min_length : nat)
                    (generate_clicked : bool)
| ProgressDashboard.

(** What the main area shows. *)
Inductive page : Type :=
| HomePage
| QuestionPage (r : qa_run)
| QuizPage (v : quiz_view)
| SummaryPage (r : summary_run)
| DashboardPage.

(** One user interaction: the state of the "Initialize AI Models"
    button and the selected feature. *)
Record interaction : Type := {
  initialize_clicked : bool;
  selected : feature
}.

Section Script.
Context {libs : Libraries}.
Variable MODELS_AVAILABLE : bool.
Variable world : nat -> provider.

(** One run of [main]: the sidebar, then the selected feature. *)
Definition main (i : interaction) (s : session_state) (p : process)
  : session_state * process * page :=
  let (s1, p1) := sidebar MODELS_AVAILABLE world (initialize_clicked i) s p in
  match selected i with
  | Home => (s1, p1, HomePage)
  | QuestionAnswering uploaded_file question clicked =>
      let r := question_answering_interface s1 uploaded_file question clicked in
      (state_after r, p1, QuestionPage r)
  | QuizGeneration uploaded_file num_questions clicked =>
      (s1, p1, QuizPage (quiz_interface s1 uploaded_file num_questions clicked))
  | TextSummarization input max_length min_length clicked =>
      (s1, p1,
       SummaryPage (summarization_interface s1 input max_length min_length clicked))
  | ProgressDashboard => (s1, p1, DashboardPage)
  end.

(** The reruns of one session, in order. *)
Fixpoint session_run (runs : list interaction) (s : session_state) (p : process)
  : session_state * process :=
  match runs with
  | [] => (s, p)
  | i :: rest =>
      let '(s', p', _) := main i s p in
      session_run rest s' p'
  end.

(** Several browser sessions on one server process.  Each script run
    belongs to the session with the given number; the session states
    are separate, the [st.cache_resource] entry is shared. *)
Definition sessions : Type := nat -> session_state.

Definition all_new : sessions := fun _ => new_session.

Definition set_session (ss : sessions) (id : nat) (s : session_state) : sessions :=
  fun id' => if Nat.eqb id' id then s else ss id'.

Fixpoint server_run (runs : list (nat * interaction)) (ss : sessions)
  (p : process) : sessions * process :=
  match runs with
  | [] => (ss, p)
  | (id, i) :: rest =>
      let '(s', p', _) := main i (ss id) p in
      server_run rest (set_session ss id s') p'
  end.

End Script.

End Main.

(** ** Concrete inputs *)

Module Inputs.

Import DocumentProcessor AIModels StudyAssistantApp.

Definition file (file_name mime : String.string) (data : bytes) : UploadedFile :=
  {| name := lit file_name; type := lit mime; content := data |}.
Arguments file (file_name mime)%_string data.

(** A PDF of two pages whose texts are "a" and "b". *)
Definition two_pages : list (outcome str) := [Returns (lit "a"); Returns (lit "b")].
Definition two_page_reader : Libraries := reader_of (Returns two_pages) (Raises corrupt).
Definition slides_pdf : UploadedFile := file "slides.pdf" "application/pdf" [37; 80; 68; 70]%N.

(** A text file whose bytes are not UTF-8, and a picture. *)
Definition broken_txt : UploadedFile := file "NOTES.TXT" "application/octet-stream" [104; 255]%N.
Definition picture : UploadedFile := file "photo.png" "image/png" [137; 80; 78; 71]%N.

(** An empty text file, and two versions of one file name. *)
Definition empty_txt : UploadedFile := file "empty.txt" "text/plain" [].
Definition notes_v1 : UploadedFile := file "notes.txt" "text/plain" [111; 108; 100]%N.
Definition notes_v2 : UploadedFile := file "notes.txt" "text/plain" [110; 101; 119; 33]%N.

(** A session whose models are loaded; the question-answering model
    answers with the given confidence. *)
Definition ready_session (confidence : Q) : session_state :=
  with_models new_session (Some (demo_models confidence)).

Definition what_is_this : str := lit "What is this?".

(** A pasted text of 2000 words, 10000 characters: four windows. *)
Definition long_text : str := concat (repeat (lit "word ") 2000).

(** A document with two sentences of more than five words, a short
    one between them. *)
Definition two_sentences : str :=
  lit "This is the first sentence of eight words. Short one. Another sentence that has more than five words.".
Definition lesson_txt : UploadedFile :=
  {| name := lit "lesson.txt"; type := lit "text/plain"; content := two_sentences |}.

(** Models whose summarizer runs out of memory on every call, and models
    whose question generator rejects prompts of more than 62
    characters. *)
Definition out_of_memory : exn := lit "out of memory".
Definition out_of_memory_models : model_dict :=
  {| summarizer := fun _ _ _ => Raises out_of_memory;
     qa := demo_qa (9 # 10);
     embedder := fun _ => Returns [];
     quiz_gen := demo_quiz_gen |}.

Definition prompt_too_long : exn := lit "prompt too long".
Definition short_prompt_models : model_dict :=
  {| summarizer := demo_summarizer;
     qa := demo_qa (9 # 10);
     embedder := fun _ => Returns [];
     quiz_gen := fun prompt max_length =>
       if 62 <? length prompt then Raises prompt_too_long
       else demo_quiz_gen prompt max_length |}.

(** A text file of four words. *)
Definition four_words : str := lit "Too short. Really short.".
Definition short_txt : UploadedFile :=
  {| name := lit "short.txt"; type := lit "text/plain"; content := four_words |}.

(** A scanned PDF: three pages, none with extractable text. *)
Definition scanned_reader : Libraries :=
  reader_of (Returns [Returns []; Returns []; Returns []]) (Raises corrupt).
Definition scan_pdf : UploadedFile := file "scan.pdf" "application/pdf" [37; 80; 68; 70]%N.

(** A DOCX document of three paragraphs, the second one empty. *)
Definition three_paragraphs : list str := [lit "Title"; []; lit "Body text"].
Definition docx_reader : Libraries :=
  reader_of (Raises corrupt) (Returns three_paragraphs).
Definition report_docx : UploadedFile :=
  file "report.docx"
       "application/vnd.openxmlformats-officedocument.wordprocessingml.document"
       [80; 75; 3; 4]%N.

(** Three sentences that end in a question mark or an exclamation mark,
    and one sentence with a decimal number in it. *)
Definition three_exclamations : str :=
  lit "Is this the first real sentence of the text? Yes it most certainly is the first! What a fine third sentence this one is!".
Definition questions_txt : UploadedFile :=
  {| name := lit "questions.txt"; type := lit "text/plain";
     content := three_exclamations |}.
Definition pi_sentence : str :=
  lit "The measured value of pi is 3.14159 in nearly all the school books".

End Inputs.

(** * Properties *)

(** ** The Python operations on small inputs *)

Section PythonExamples.
Import DocumentProcessor.

Example range_9000 : range 0 9000 3000 = [0; 3000; 6000].
Proof. vm_compute. reflexivity. Qed.

Example range_9001 : range 0 9001 3000 = [0; 3000; 6000; 9000].
Proof. vm_compute. reflexivity. Qed.

Example range_empty : range 0 0 3000 = [].
Proof. reflexivity. Qed.

Example slice_is_clipped : slice (lit "abcdef") 4 9 = lit "ef".
Proof. reflexivity. Qed.

Example split_ws_runs :
  split_ws (lit "  two   words ") = [lit "two"; lit "words"].
Proof. reflexivity. Qed.

Example split_on_dot :
  split_on dot (lit "a.b..") = [lit "a"; lit "b"; []; []]
  /\ split_on dot [] = [[]].
Proof. split; reflexivity. Qed.

Example strip_both_ends : strip (9 :: lit " a b " ++ newline)%N = lit "a b".
Proof. reflexivity. Qed.

Example join_space :
  join space [lit "a"; lit "b"; lit "c"] = lit "a b c" /\ join space [] = [].
Proof. split; reflexivity. Qed.

Example contains_and_endswith :
  contains (lit "pdf") (lit "application/pdf") = true
  /\ contains (lit "word") (lit "text/plain") = false
  /\ endswith (lit "notes.txt") (lit ".txt") = true
  /\ endswith (lit "txt") (lit ".txt") = false.
Proof. repeat split; reflexivity. Qed.

Example utf8_decode_examples :
  utf8_decode [195; 169]%N = Returns [233%N]
  /\ utf8_decode [240; 159; 152; 128]%N = Returns [128512%N]
  /\ utf8_decode [192; 128]%N = Raises undecodable
  /\ utf8_decode [237; 160; 128]%N = Raises undecodable
  /\ utf8_decode [104; 255]%N = Raises undecodable.
Proof. repeat split; reflexivity. Qed.

Example format_1f_examples :
  Float64.format_1f (Float64.nearest (9962 # 100)%Q) = lit "99.6"
  /\ Float64.format_1f (1 # 4)%Q = lit "0.2"
  /\ Float64.format_1f (3 # 4)%Q = lit "0.8"
  /\ Float64.format_1f (Float64.nearest (35 # 100)%Q) = lit "0.3"
  /\ Float64.format_1f (Float64.nearest (45 # 100)%Q) = lit "0.5"
  /\ Float64.format_1f (Float64.nearest (- 3 # 100)%Q) = lit "-0.0"
  /\ Float64.format_1f 100%Q = lit "100.0"
  /\ Float64.format_1f (- 12345 # 100)%Q = lit "-123.4"
  /\ Float64.format_1f 0%Q = lit "0.0".
Proof. repeat split; vm_compute; reflexivity. Qed.

Example nearest_examples :
  Float64.nearest (1 # 10)%Q = (3602879701896397 # 36028797018963968)%Q
  /\ Float64.nearest (3 # 10)%Q = (5404319552844595 # 18014398509481984)%Q
  /\ Float64.nearest (1 # 2)%Q = (1 # 2)%Q
  /\ Float64.nearest (9007199254740993 # 1)%Q = (9007199254740992 # 1)%Q
  /\ Float64.nearest 0%Q = 0%Q.
Proof. repeat split; vm_compute; reflexivity. Qed.

(** [Float64] computes what the processor's binary64 arithmetic
    computes: for all lengths below 60 against all non-zero lengths up
    to 60, and for some larger ones. *)
Example float64_agrees_with_kernel_floats :
  forallb KernelFloat.agree (list_prod (seq 0 60) (seq 1 60)) = true
  /\ forallb KernelFloat.agree
       [(38, 10000); (1, 3000); (3001, 3000); (2999, 3000); (1234, 9973);
        (9000, 7)] = true.
Proof. split; vm_compute; reflexivity. Qed.

End PythonExamples.

(** ** Lists and slices *)

Section ListFacts.
Context {A : Type}.

Lemma firstn_add_skipn (a b : nat) (l : list A) :
  firstn (a + b) l = firstn a l ++ firstn b (skipn a l).
Proof.
  revert l; induction a as [|a IH]; intros l; simpl.
  - reflexivity.
  - destruct l as [|x l]; simpl.
    + now rewrite firstn_nil.
    + now rewrite IH.
Qed.

Lemma slice_from_0 (l : list A) (j : nat) : slice l 0 j = firstn j l.
Proof. unfold slice. now rewrite Nat.sub_0_r. Qed.

Lemma slice_window (l : list A) (i w : nat) :
  slice l i (i + w) = firstn w (skipn i l).
Proof. unfold slice. f_equal. lia. Qed.

Lemma slice_clipped (l : list A) (i w : nat) :
  slice l i (i + w) = slice l i (Nat.min (i + w) (length l)).
Proof.
  unfold slice.
  destruct (Nat.le_ge_cases (i + w) (length l)) as [H|H].
  - now rewrite Nat.min_l.
  - rewrite Nat.min_r by exact H.
    rewrite !firstn_all2; trivial; rewrite length_skipn; lia.
Qed.

Lemma differ_in_length (a b : list A) :
  Nat.eqb (length a) (length b) = false -> a <> b.
Proof.
  intros H E. rewrite E, Nat.eqb_refl in H. discriminate.
Qed.

Lemma skipn_0_all (ws : list (list A)) : List.map (skipn 0) ws = ws.
Proof.
  induction ws as [|w ws IH]; [reflexivity|].
  cbn [List.map]. rewrite IH. reflexivity.
Qed.

End ListFacts.

(** ** Chunker *)

Section ChunkerFacts.
Import Chunker.

Lemma range_0_covers (n w : nat) : 0 < w -> n <= (n - 0 + w - 1) / w * w.
Proof.
  intros Hw.
  pose proof (Nat.div_mod_eq (n - 0 + w - 1) w) as E.
  pose proof (Nat.mod_upper_bound (n - 0 + w - 1) w) as U.
  nia.
Qed.

Lemma windows_prefix (w : nat) (text : str) (n : nat) :
  concat (List.map (fun i => slice text i (i + w))
                   (List.map (fun k => 0 + k * w) (seq 0 n)))
  = firstn (n * w) text.
Proof.
  induction n as [|n IH].
  - reflexivity.
  - rewrite seq_S, !map_app, concat_app, IH. simpl.
    rewrite app_nil_r, slice_window.
    now rewrite (Nat.add_comm w (n * w)), firstn_add_skipn.
Qed.

Lemma chunks_concat (w : nat) (text : str) :
  0 < w -> concat (chunks w text) = text.
Proof.
  intros Hw. unfold chunks, range.
  rewrite windows_prefix.
  apply firstn_all2, range_0_covers, Hw.
Qed.

Lemma spec_reconstruct_0 (ws : list str) : spec_reconstruct 0 ws = concat ws.
Proof.
  destruct ws as [|w ws]; simpl; [reflexivity|].
  now rewrite skipn_0_all.
Qed.

Lemma chunks_spans (w : nat) (text : str) :
  chunks w text
  = List.map (fun k => slice text (k * w)
                         (Nat.min (k * w + w) (length text)))
             (seq 0 ((length text + w - 1) / w)).
Proof.
  unfold chunks, range. rewrite map_map, Nat.sub_0_r.
  apply map_ext. intros k. simpl. apply slice_clipped.
Qed.

(** C1, as the specification states it, fails on the program: the
    program's windows do not overlap, so cutting an overlap from the
    second window loses text.  With the valid configuration
    [max_window_chars = 3000], [overlap_chars = 1] and a text of 3001
    characters, the trimmed concatenation is not the text. *)
Lemma trimmed_windows_lose_text :
  (0 <= 1 /\ 1 < max_input)
  /\ spec_reconstruct 1 (chunks max_input (numbered_text 3001))
     <> numbered_text 3001.
Proof.
  split; [unfold max_input; lia|].
  apply differ_in_length. vm_compute. reflexivity.
Qed.

(** C1 (amended): for every text and every window size above zero, the
    windows the chunker produces, which never overlap, concatenate
    to the original text exactly, nothing being trimmed. *)
Theorem chunks_roundtrip (max_window_chars : nat) (text : str) :
  0 < max_window_chars ->
  spec_reconstruct 0 (chunks max_window_chars text) = text.
Proof.
  intros H. rewrite spec_reconstruct_0. now apply chunks_concat.
Qed.

Lemma chunks_roundtrip_witness :
  0 < max_input
  /\ spec_reconstruct 0 (chunks max_input (numbered_text 7000))
     = numbered_text 7000.
Proof.
  split; [unfold max_input; lia|].
  apply (chunks_roundtrip (max_window_chars := max_input)).
  unfold max_input; lia.
Defined.

(** C2, as the specification states it, fails on the program: a text of
    9000 characters is not cut into [0,4000), [3800,7800), [7600,9000),
    neither with the program's window of 3000 characters nor with a
    window of 4000 characters, because consecutive windows never
    share characters. *)
Lemma spec_example_windows_not_produced :
  chunks max_input (numbered_text 9000)
    <> spec_example_windows (numbered_text 9000)
  /\ chunks 4000 (numbered_text 9000)
    <> spec_example_windows (numbered_text 9000).
Proof.
  split; intros E.
  - apply (f_equal (fun ws => hd [] ws)) in E.
    revert E. apply differ_in_length. vm_compute. reflexivity.
  - apply (f_equal (fun ws => hd [] (tl ws))) in E.
    apply (f_equal (fun w => hd 0%N w)) in E.
    vm_compute in E. discriminate E.
Qed.

(** C2 (amended): for every text, the chunker walks left to right in
    steps of [max_input] = 3000 characters with no overlap; window [k]
    covers [[3000k, 3000k + 3000)] clipped to the text length, and there
    are as many windows as steps that start inside the text.  A text of
    9000 characters yields exactly the three windows [0,3000),
    [3000,6000), [6000,9000). *)
Theorem chunks_walk (text : str) :
  chunks max_input text
  = List.map (fun k => slice text (k * 3000)
                         (Nat.min (k * 3000 + 3000) (length text)))
             (seq 0 ((length text + 2999) / 3000))
  /\ (length text = 9000 ->
      chunks max_input text
      = [slice text 0 3000; slice text 3000 6000; slice text 6000 9000]).
Proof.
  assert (G : chunks max_input text
    = List.map (fun k => slice text (k * 3000)
                         (Nat.min (k * 3000 + 3000) (length text)))
             (seq 0 ((length text + 2999) / 3000))).
  { rewrite chunks_spans. unfold max_input.
    replace (length text + 3000 - 1) with (length text + 2999) by lia.
    reflexivity. }
  split; [exact G|].
  intros L. rewrite G, L.
  replace ((9000 + 2999) / 3000) with 3 by (vm_compute; reflexivity).
  cbn [seq List.map].
  replace (Nat.min (0 * 3000 + 3000) 9000) with 3000 by (vm_compute; reflexivity).
  replace (Nat.min (1 * 3000 + 3000) 9000) with 6000 by (vm_compute; reflexivity).
  replace (Nat.min (2 * 3000 + 3000) 9000) with 9000 by (vm_compute; reflexivity).
  replace (1 * 3000) with 3000 by (vm_compute; reflexivity).
  replace (2 * 3000) with 6000 by (vm_compute; reflexivity).
  reflexivity.
Qed.

Lemma chunks_walk_witness :
  length (numbered_text 9000) = 9000
  /\ chunks max_input (numbered_text 9000)
     = [slice (numbered_text 9000) 0 3000;
        slice (numbered_text 9000) 3000 6000;
        slice (numbered_text 9000) 6000 9000].
Proof.
  assert (L : length (numbered_text 9000) = 9000) by (vm_compute; reflexivity).
  split; [exact L|].
  exact (proj2 (chunks_walk (numbered_text 9000)) L).
Defined.

End ChunkerFacts.

(** ** DocumentProcessor *)

Section DocumentProcessorFacts.
Import DocumentProcessor Inputs.

Lemma extract_pages_all (texts : list str) (text : str) :
  extract_pages text (List.map Returns texts)
  = Returns (text ++ concat (List.map (fun t => t ++ newline) texts)).
Proof.
  revert text; induction texts as [|t texts IH]; intros text; simpl.
  - now rewrite app_nil_r.
  - rewrite IH. now rewrite <- !app_assoc.
Qed.

Lemma extract_pages_raises (pages : list (outcome str)) (text : str) :
  existsb raises pages = true -> exists e, extract_pages text pages = Raises e.
Proof.
  revert text; induction pages as [|page pages IH]; intros text H; simpl in *.
  - discriminate.
  - destruct page as [t|e]; simpl in *.
    + now apply IH.
    + now exists e.
Qed.

(** C9, as the specification states it, fails on the program: for a PDF
    of two pages "a" and "b" the program returns "a\nb\n", which is not
    the page texts joined by a newline between them: a newline follows
    the last page as well. *)
Lemma pdf_text_has_trailing_newline :
  @extract_text_from_pdf two_page_reader slides_pdf
    = Returns (Some (lit "a" ++ newline ++ lit "b" ++ newline))
  /\ @extract_text_from_pdf two_page_reader slides_pdf
    <> Returns (Some (join newline [lit "a"; lit "b"])).
Proof.
  split; [reflexivity|]. vm_compute. discriminate.
Qed.

(** C9 (amended): for every PDF whose pages p1..pn all extract,
    extraction returns the page texts in page order, each one followed
    by a newline and nothing else added, so that the text ends with the
    newline of the last page; a page without extractable text
    contributes the empty string, hence only its newline, and the pages
    after it are still extracted. *)
Theorem pdf_pages_each_followed_by_newline {libs : Libraries}
  (f : UploadedFile) (texts : list str) :
  PdfReader (content f) = Returns (List.map Returns texts) ->
  extract_text_from_pdf f
  = Returns (Some (concat (List.map (fun t => t ++ newline) texts)))
  /\ forall before after,
       texts = before ++ [] :: after ->
       extract_text_from_pdf f
       = Returns (Some (concat (List.map (fun t => t ++ newline) before)
                        ++ newline
                        ++ concat (List.map (fun t => t ++ newline) after))).
Proof.
  intros H.
  assert (G : extract_text_from_pdf f
    = Returns (Some (concat (List.map (fun t => t ++ newline) texts)))).
  { unfold extract_text_from_pdf. rewrite H. simpl.
    now rewrite extract_pages_all. }
  split; [exact G|].
  intros before after E. rewrite G, E.
  now rewrite map_app, concat_app.
Qed.

Lemma pdf_pages_each_followed_by_newline_witness :
  @PdfReader two_page_reader (content slides_pdf)
    = Returns (List.map Returns [lit "a"; lit "b"])
  /\ @extract_text_from_pdf two_page_reader slides_pdf
    = Returns (Some (concat (List.map (fun t => t ++ newline) [lit "a"; lit "b"]))).
Proof.
  split; [reflexivity|].
  exact (proj1 (@pdf_pages_each_followed_by_newline two_page_reader slides_pdf
                  [lit "a"; lit "b"] eq_refl)).
Defined.

Lemma process_document_dispatch {libs : Libraries} (f : UploadedFile) :
  process_document (Some f)
  = match format_of f with
    | Some PDF => extract_text_from_pdf f
    | Some DOCX => extract_text_from_docx f
    | Some TXT => extract_text_from_txt f
    | None => Returns None
    end.
Proof.
  unfold process_document, format_of.
  destruct (contains (lit "pdf") (type f) || endswith (lower (name f)) (lit ".pdf"));
    [reflexivity|].
  destruct (contains (lit "word") (type f) || endswith (lower (name f)) (lit ".docx"));
    [reflexivity|].
  destruct (contains (lit "text") (type f) || endswith (lower (name f)) (lit ".txt"));
    reflexivity.
Qed.

Lemma extractors_return {libs : Libraries} (f : UploadedFile) :
  (exists r, extract_text_from_pdf f = Returns r)
  /\ (exists r, extract_text_from_docx f = Returns r)
  /\ (exists r, extract_text_from_txt f = Returns r).
Proof.
  unfold extract_text_from_pdf, extract_text_from_docx, extract_text_from_txt.
  repeat split.
  - destruct (PdfReader (content f)) as [pages|e]; simpl; eauto.
    destruct (extract_pages [] pages); simpl; eauto.
  - destruct (Document (content f)); simpl; eauto.
  - destruct (decode_utf8 (content f)); simpl; eauto.
Qed.

Lemma process_document_returns {libs : Libraries} (uploaded_file : option UploadedFile) :
  exists r, process_document uploaded_file = Returns r.
Proof.
  destruct uploaded_file as [f|]; [|now exists None].
  rewrite process_document_dispatch.
  destruct (extractors_return f) as (Hp & Hd & Ht).
  destruct (format_of f) as [[| |]|]; eauto.
Qed.

(** C10: [process_document] never raises, and it returns [None] for a
    missing upload, for every file that matches none of PDF, DOCX and
    TXT by declared type or name suffix, and for every file whose
    extraction fails in a library call; the caller sees the one value
    [None] in all three cases. *)
Theorem process_document_failures_are_None {libs : Libraries} :
  process_document None = Returns None
  /\ (forall f, format_of f = None -> process_document (Some f) = Returns None)
  /\ (forall f, extraction_fails f = true ->
                process_document (Some f) = Returns None)
  /\ (forall uploaded_file, exists r, process_document uploaded_file = Returns r).
Proof.
  split; [reflexivity|]. split; [|split].
  - intros f H. now rewrite process_document_dispatch, H.
  - intros f H. rewrite process_document_dispatch.
    unfold extraction_fails in H.
    destruct (format_of f) as [[| |]|]; try discriminate.
    + unfold extract_text_from_pdf.
      destruct (PdfReader (content f)) as [pages|e]; [|reflexivity].
      destruct (extract_pages_raises pages [] H) as [e He].
      simpl. now rewrite He.
    + unfold extract_text_from_docx.
      destruct (Document (content f)); [discriminate|reflexivity].
    + unfold extract_text_from_txt.
      destruct (decode_utf8 (content f)); [discriminate|reflexivity].
  - apply process_document_returns.
Qed.

Lemma process_document_failures_are_None_witness :
  (@format_of plain_text_only picture = None
   /\ @process_document plain_text_only (Some picture) = Returns None)
  /\ (@extraction_fails plain_text_only broken_txt = true
      /\ @process_document plain_text_only (Some broken_txt) = Returns None)
  /\ (@extraction_fails plain_text_only slides_pdf = true
      /\ @process_document plain_text_only (Some slides_pdf) = Returns None).
Proof.
  pose proof (@process_document_failures_are_None plain_text_only)
    as (_ & Hformat & Hfails & _).
  assert (F : @format_of plain_text_only picture = None) by reflexivity.
  assert (T : @extraction_fails plain_text_only broken_txt = true) by reflexivity.
  assert (P : @extraction_fails plain_text_only slides_pdf = true) by reflexivity.
  split; [split; [exact F | exact (Hformat picture F)]|].
  split; [split; [exact T | exact (Hfails broken_txt T)]|].
  split; [exact P | exact (Hfails slides_pdf P)].
Defined.

End DocumentProcessorFacts.

(** ** AIModels *)

Section AIModelsFacts.
Import AIModels StudyAssistantApp Inputs.

Lemma load_models_hit (MODELS_AVAILABLE : bool) (world : nat -> provider)
  (p : process) :
  load_models MODELS_AVAILABLE world (snd (load_models MODELS_AVAILABLE world p))
  = load_models MODELS_AVAILABLE world p.
Proof.
  unfold load_models.
  destruct (cache_resource p) as [value|] eqn:E; simpl.
  - now rewrite E.
  - reflexivity.
Qed.

(** Whatever the first call returned, every later call returns the same
    value and leaves the process as it is: the body does not run again. *)
Lemma load_models_times_same (MODELS_AVAILABLE : bool) (world : nat -> provider)
  (p : process) (n : nat) :
  load_models_times MODELS_AVAILABLE world n
    (snd (load_models MODELS_AVAILABLE world p))
  = load_models MODELS_AVAILABLE world p.
Proof.
  induction n as [|n IH]; simpl.
  - apply load_models_hit.
  - now rewrite load_models_hit.
Qed.

Lemma successful_load_is_cached (MODELS_AVAILABLE : bool)
  (world : nat -> provider) (p : process) (m : model_dict) (n : nat) :
  fst (load_models MODELS_AVAILABLE world p) = Some m ->
  let p' := snd (load_models MODELS_AVAILABLE world p) in
  load_models_times MODELS_AVAILABLE world n p' = (Some m, p').
Proof.
  intros H p'. unfold p'. rewrite load_models_times_same.
  rewrite <- H. now destruct (load_models MODELS_AVAILABLE world p).
Qed.

(** C3 at the failing input: the packages are installed, the first
    click on "Initialize AI Models" finds the model hub unreachable, and
    the user clicks again when construction would succeed.  The second
    call of [load_models] returns the cached [None]; the body has run
    once, and the session still has no models. *)
Theorem failed_load_is_not_retried :
  let first := sidebar true down_then_up true new_session fresh_process in
  let second := sidebar true down_then_up true (fst first) (snd first) in
  models (fst first) = None
  /\ load_models_body true (down_then_up 1) <> None
  /\ models (fst second) = None
  /\ body_runs (snd second) = 1
  /\ fst (load_models true down_then_up (snd first)) = None.
Proof.
  repeat split; try reflexivity. discriminate.
Qed.

End AIModelsFacts.

(** ** Question answering *)

Section QuestionAnsweringFacts.
Import DocumentProcessor AIModels StudyAssistantApp Inputs.

Lemma qa_run_shape {libs : Libraries} (s : session_state) (m : model_dict)
  (f : UploadedFile) (question : str) (clicked : bool) :
  models s = Some m ->
  let r := question_answering_interface s (Some f) question clicked in
  extracted r = differs (current_document s) (name f)
  /\ state_after r
     = (if differs (current_document s) (name f)
        then after_processing s f (returned (process_document (Some f)))
        else s)
  /\ models (state_after r) = Some m
  /\ (dispatched r, view r) = question_input m (state_after r) question clicked.
Proof.
  intros Hm. unfold question_answering_interface. rewrite Hm.
  destruct (differs (current_document s) (name f)).
  - destruct (process_document_returns (Some f)) as [text Ht]. rewrite Ht.
    change (returned (Returns text)) with text.
    assert (Hm' : models (after_processing s f text) = Some m).
    { destruct text as [t|]; simpl; trivial. now destruct (truthy t). }
    destruct (question_input m (after_processing s f text) question clicked)
      as [calls page] eqn:Hq; simpl. repeat split; auto.
  - destruct (question_input m s question clicked) as [calls page] eqn:Hq; simpl.
    repeat split; auto.
Qed.

Lemma question_input_asked (m : model_dict) (s : session_state)
  (text question : str) :
  document_text s = Some text -> truthy text = true ->
  truthy question = true ->
  question_input m s question true = get_answer m text question.
Proof.
  intros Ht Tt Tq. unfold question_input. now rewrite Ht, Tt, Tq.
Qed.

Lemma question_input_contexts (m : model_dict) (s : session_state)
  (question : str) (clicked : bool) (q ctx : str) :
  In (q, ctx) (fst (question_input m s question clicked)) ->
  q <> [] /\ ctx <> [].
Proof.
  unfold question_input.
  destruct (document_text s) as [text|]; [|intros []].
  destruct text as [|c text]; [intros []|]. simpl truthy. cbv iota.
  destruct question as [|c' question]; [intros []|].
  destruct clicked; [|intros []].
  simpl. intros [E|[]]. inversion E; subst. split; discriminate.
Qed.

Lemma question_input_silent (m : model_dict) (s : session_state)
  (question : str) (clicked : bool) :
  truthy_opt (document_text s) = false ->
  question_input m s question clicked = ([], NoDocumentText).
Proof.
  unfold question_input, truthy_opt.
  destruct (document_text s) as [text|]; [|reflexivity].
  now intros ->.
Qed.

Lemma low_confidence_near_three_tenths :
  ((3 # 10) - (1 # 10000000000000000) < low_confidence)%Q
  /\ (low_confidence <= 3 # 10)%Q.
Proof.
  unfold low_confidence, Qlt, Qle; simpl; split; lia.
Qed.

(** C6: whenever a question is asked of the session's text (the text
    is there, a question is typed and "Get Answer" is clicked), the
    text is truncated, not chunked, to the single context [text[:2000]]
    that starts at offset 0, and the model is called exactly once with
    that context.  Whatever confidence the model returns, the answer is
    shown; a confidence below the threshold (the float 0.3) only sets
    the low-confidence warning, and only an exception of the model
    call turns the task into an error. *)
Theorem question_dispatches_once_truncated {libs : Libraries}
  (s : session_state) (m : model_dict) (f : UploadedFile)
  (text question : str) :
  models s = Some m ->
  let r := question_answering_interface s (Some f) question true in
  document_text (state_after r) = Some text ->
  truthy text = true ->
  truthy question = true ->
  dispatched r = [(question, firstn max_context text)]
  /\ (forall result,
        qa m question (firstn max_context text) = Returns result ->
        view r = Answered (answer result) (score result)
                          (Qltb (score result) low_confidence))
  /\ (forall e,
        view r = AnswerError e <->
        qa m question (firstn max_context text) = Raises e)
  /\ ((3 # 10) - (1 # 10000000000000000) < low_confidence <= 3 # 10)%Q.
Proof.
  intros Hm r Ht Tt Tq.
  destruct (qa_run_shape s f question true Hm) as (_ & _ & _ & Hq).
  fold r in Hq.
  rewrite (question_input_asked m _ question Ht Tt Tq) in Hq.
  unfold get_answer in Hq. rewrite slice_from_0 in Hq.
  pose proof (f_equal fst Hq) as Hd. pose proof (f_equal snd Hq) as Hv.
  cbn [fst snd] in Hd, Hv. clear Hq.
  split; [exact Hd|]. split; [|split].
  - intros result E. now rewrite Hv, E.
  - intros e. rewrite Hv.
    destruct (qa m question (firstn max_context text)) as [res|e'].
    + split; discriminate.
    + split; intros E; injection E as ->; reflexivity.
  - exact low_confidence_near_three_tenths.
Qed.

Lemma question_dispatches_once_truncated_witness :
  let s := ready_session (1 # 10) in
  let r := @question_answering_interface plain_text_only s (Some notes_v1)
             what_is_this true in
  models s = Some (demo_models (1 # 10))
  /\ document_text (state_after r) = Some (lit "old")
  /\ truthy (lit "old") = true
  /\ truthy what_is_this = true
  /\ dispatched r = [(what_is_this, firstn max_context (lit "old"))]
  /\ view r = Answered (lit "old") (1 # 10) true.
Proof.
  intros s r.
  assert (Hm : models s = Some (demo_models (1 # 10))) by reflexivity.
  assert (Ht : document_text (state_after r) = Some (lit "old")) by reflexivity.
  assert (Tt : truthy (lit "old") = true) by reflexivity.
  assert (Tq : truthy what_is_this = true) by reflexivity.
  destruct (@question_dispatches_once_truncated plain_text_only s
              (demo_models (1 # 10)) notes_v1 (lit "old") what_is_this
              Hm Ht Tt Tq) as (Hd & Hv & _).
  split; [exact Hm|]. split; [exact Ht|]. split; [exact Tt|].
  split; [exact Tq|]. split; [exact Hd|].
  exact (Hv {| answer := lit "old"; score := 1 # 10 |} eq_refl).
Defined.

(** C8, as the specification states it, fails on the program: when the
    uploaded file extracts to the empty string, the text is not stored,
    the question box is not drawn, and a click on "Get Answer" reaches
    no model: nothing is dispatched and neither an answer nor an error
    is shown. *)
Lemma empty_text_reaches_no_model :
  let r := @question_answering_interface plain_text_only (ready_session (1 # 10))
             (Some empty_txt) what_is_this true in
  @process_document plain_text_only (Some empty_txt) = Returns (Some [])
  /\ dispatched r = []
  /\ view r = NoDocumentText.
Proof.
  repeat split; reflexivity.
Qed.

(** C8 (amended): an empty extracted text never reaches the QA
    capability.  When the upload extracts to the empty string and the
    session holds no text, the run stores nothing, dispatches nothing
    and shows neither an answer nor an error; and in every run, each
    context that is dispatched is a non-empty string, asked with a
    non-empty question. *)
Theorem empty_text_not_dispatched {libs : Libraries} (s : session_state)
  (f : UploadedFile) (question : str) (clicked : bool) :
  let r := question_answering_interface s (Some f) question clicked in
  (process_document (Some f) = Returns (Some []) ->
   truthy_opt (document_text s) = false ->
   state_after r = s /\ dispatched r = []
   /\ (view r = NoDocumentText \/ view r = ModelsNotInitialized))
  /\ (forall q ctx, In (q, ctx) (dispatched r) -> q <> [] /\ ctx <> []).
Proof.
  intros r. destruct (models s) as [m|] eqn:Hm.
  - destruct (qa_run_shape s f question clicked Hm) as (_ & Hs & _ & Hq).
    fold r in Hs, Hq. split.
    + intros Hp Hd.
      assert (E : state_after r = s).
      { rewrite Hs, Hp. now destruct (differs (current_document s) (name f)). }
      rewrite E in Hq. rewrite (question_input_silent m s question clicked Hd) in Hq.
      inversion Hq. auto.
    + intros q ctx Hin.
      apply (question_input_contexts m (state_after r) question clicked).
      now rewrite <- Hq.
  - subst r. unfold question_answering_interface. rewrite Hm. simpl.
    split; [auto|]. intros q ctx [].
Qed.

Lemma empty_text_not_dispatched_witness :
  let s := ready_session (1 # 10) in
  let r := @question_answering_interface plain_text_only s (Some empty_txt)
             what_is_this true in
  @process_document plain_text_only (Some empty_txt) = Returns (Some [])
  /\ truthy_opt (document_text s) = false
  /\ state_after r = s /\ dispatched r = []
  /\ (view r = NoDocumentText \/ view r = ModelsNotInitialized).
Proof.
  intros s r.
  assert (Hp : @process_document plain_text_only (Some empty_txt)
               = Returns (Some [])) by reflexivity.
  assert (Hd : truthy_opt (document_text s) = false) by reflexivity.
  split; [exact Hp|]. split; [exact Hd|].
  exact (proj1 (@empty_text_not_dispatched plain_text_only s empty_txt
                  what_is_this true) Hp Hd).
Defined.

End QuestionAnsweringFacts.

(** ** The cached document text *)

Section DocumentCacheFacts.
Import DocumentProcessor AIModels StudyAssistantApp Inputs.

Lemma differs_false_iff (current : option str) (file_name : str) :
  differs current file_name = false <-> current = Some file_name.
Proof.
  unfold differs, str_eqb. destruct current as [c|].
  - destruct (list_eq_dec N.eq_dec c file_name) as [E|N]; simpl.
    + subst. tauto.
    + split; [discriminate|]. intros E. injection E as E. contradiction.
  - split; discriminate.
Qed.

Lemma upload_step {libs : Libraries} (s : session_state) (m : model_dict)
  (f : UploadedFile) (rest : list UploadedFile) :
  models s = Some m ->
  let s1 := if differs (current_document s) (name f)
            then after_processing s f (returned (process_document (Some f)))
            else s in
  models s1 = Some m
  /\ upload_all s (f :: rest)
     = (fst (upload_all s1 rest),
        differs (current_document s) (name f) :: snd (upload_all s1 rest)).
Proof.
  intros Hm s1.
  destruct (qa_run_shape s f [] false Hm) as (He & Hs & Hm' & _).
  fold s1 in Hs. cbn [upload_all]. rewrite Hs, He.
  split; [now rewrite <- Hs|].
  now destruct (upload_all s1 rest).
Qed.

Lemma upload_all_snoc {libs : Libraries} (before : list UploadedFile)
  (f : UploadedFile) (s : session_state) (m : model_dict) :
  models s = Some m ->
  models (fst (upload_all s before)) = Some m
  /\ upload_all s (before ++ [f])
     = (fst (upload_all (fst (upload_all s before)) [f]),
        snd (upload_all s before)
        ++ snd (upload_all (fst (upload_all s before)) [f])).
Proof.
  revert s; induction before as [|g before IH]; intros s Hm.
  - cbn [app upload_all fst snd]. split; [exact Hm|].
    now destruct (upload_all s [f]).
  - destruct (upload_step s g before Hm) as (Hm1 & E1).
    destruct (upload_step s g (before ++ [f]) Hm) as (_ & E2).
    cbn zeta in E1, E2, Hm1.
    rewrite <- app_comm_cons, E2, E1. cbn [fst snd].
    destruct (IH _ Hm1) as (Hm2 & E3). rewrite E3. cbn [fst snd].
    split; [exact Hm2|reflexivity].
Qed.

(** C4, as the specification states it, fails on the program: the
    session remembers a document by its file name alone.  When
    "notes.txt" is uploaded again with other content, its identity has
    changed, yet the file is not extracted again and the session keeps
    the text of the first version. *)
Lemma changed_content_is_not_reextracted :
  let run := @upload_all plain_text_only (ready_session (1 # 10))
               [notes_v1; notes_v2] in
  name notes_v1 = name notes_v2
  /\ spec_identity notes_v1 <> spec_identity notes_v2
  /\ @process_document plain_text_only (Some notes_v2)
     = Returns (Some (lit "new!"))
  /\ snd run = [true; false]
  /\ document_text (fst run) = Some (lit "old").
Proof.
  repeat split; try reflexivity. discriminate.
Qed.

(** C4 (amended): for every sequence of uploads on the
    question-answering page of a session whose models are loaded, the
    text is cached under the file name alone.  An upload is extracted
    exactly when its name differs from the session's
    [current_document]; when the name is the same the session state,
    cached text included, stays as it is, whatever the content of the
    file; and an extraction replaces the cached text and the current
    name only when it yields a non-empty text. *)
Theorem extraction_is_keyed_by_file_name {libs : Libraries}
  (s : session_state) (m : model_dict) (before : list UploadedFile)
  (f : UploadedFile) :
  models s = Some m ->
  let s0 := fst (upload_all s before) in
  let run := upload_all s (before ++ [f]) in
  snd run = snd (upload_all s before) ++ [differs (current_document s0) (name f)]
  /\ (differs (current_document s0) (name f) = false
      <-> current_document s0 = Some (name f))
  /\ (current_document s0 = Some (name f) -> fst run = s0)
  /\ (current_document s0 <> Some (name f) ->
      fst run = after_processing s0 f (returned (process_document (Some f)))).
Proof.
  intros Hm s0 run.
  destruct (upload_all_snoc before f s Hm) as (Hm0 & E). fold s0 in Hm0, E.
  destruct (upload_step s0 f [] Hm0) as (_ & E1).
  cbn zeta in E1. change (upload_all ?x []) with (x, @nil bool) in E1.
  unfold run. rewrite E, E1. cbn [fst snd].
  split; [reflexivity|]. split; [apply differs_false_iff|]. split.
  - intros H. apply differs_false_iff in H. now rewrite H.
  - intros H. destruct (differs (current_document s0) (name f)) eqn:D.
    + reflexivity.
    + apply differs_false_iff in D. contradiction.
Qed.

Lemma extraction_is_keyed_by_file_name_witness :
  let s := ready_session (1 # 10) in
  let s0 := fst (@upload_all plain_text_only s [notes_v1]) in
  models s = Some (demo_models (1 # 10))
  /\ current_document s0 = Some (name notes_v2)
  /\ fst (@upload_all plain_text_only s ([notes_v1] ++ [notes_v2])) = s0.
Proof.
  intros s s0.
  assert (Hm : models s = Some (demo_models (1 # 10))) by reflexivity.
  assert (Hc : current_document s0 = Some (name notes_v2)) by reflexivity.
  split; [exact Hm|]. split; [exact Hc|].
  destruct (@extraction_is_keyed_by_file_name plain_text_only s
              (demo_models (1 # 10)) [notes_v1] notes_v2 Hm)
    as (_ & _ & Hsame & _).
  exact (Hsame Hc).
Defined.

End DocumentCacheFacts.

(** ** Summarization *)

Section SummarizationFacts.
Import DocumentProcessor AIModels StudyAssistantApp Inputs.







End SummarizationFacts.

(** ** Quiz generation *)

Section QuizFacts.
Import DocumentProcessor AIModels StudyAssistantApp Inputs.

Lemma quiz_loop_all_return (quiz_gen : str -> nat -> outcome str)
  (g : str -> str) (selected : list str) (i : nat) :
  (forall u, In u selected ->
             quiz_gen (prompt_of u) question_max_length = Returns (g u)) ->
  quiz_loop quiz_gen i selected
  = {| prompts := List.map prompt_of selected;
       items := List.map (item_of g) (combine (seq i (length selected)) selected);
       failure := None |}.
Proof.
  revert i; induction selected as [|u selected IH]; intros i H.
  - reflexivity.
  - cbn [quiz_loop]. rewrite (H u (or_introl eq_refl)).
    rewrite (IH (S i)) by (intros v Hv; apply H; now right).
    reflexivity.
Qed.

Lemma numbered_length {A} (i : nat) (l : list A) :
  length (combine (seq i (length l)) l) = length l.
Proof. rewrite length_combine, length_seq. apply Nat.min_id. Qed.

(** C7, as the specification states it, fails on the program: the text
    is split at full stops only.  Three sentences that end in a
    question mark or an exclamation mark are three units of more than
    five words for the specification, but one unit for the program, so
    a quiz of 5 questions has 1 item and not 3. *)
Lemma only_full_stops_end_a_unit :
  length (spec_units three_exclamations) = 3
  /\ sentences three_exclamations = [three_exclamations]
  /\ (exists r,
        @quiz_interface plain_text_only (ready_session (9 # 10))
          (Some questions_txt) 5 true = Quiz r
        /\ length (items r) = 1
        /\ length (items r) <> Nat.min 5 (length (spec_units three_exclamations))).
Proof.
  split; [vm_compute; reflexivity|].
  split; [vm_compute; reflexivity|].
  eexists. split; [reflexivity|]. split; [reflexivity|]. vm_compute. lia.
Qed.

(** A full stop ends a unit wherever it stands, also inside a number. *)
Example full_stop_inside_a_number :
  sentences pi_sentence
  = [lit "The measured value of pi is 3";
     lit "14159 in nearly all the school books"].
Proof. vm_compute. reflexivity. Qed.

(** C7 (amended): for every document text and requested count [N], the
    quiz is made from the pieces of the text between full stops (the
    full stop is the only character that ends a unit, wherever it
    stands) that have more than five words, stripped, the first [N] of
    them in source order.  When the generator returns on their prompts,
    there are exactly [min N (number of surviving sentences)] items,
    numbered from 1; each prompt is "generate question: " followed by
    the first 200 characters of the sentence, and each item shows the
    whole sentence as its reference.  Asking for 5 questions of a text
    with 2 surviving sentences gives exactly 2 items and no error. *)
Theorem quiz_of_first_surviving_sentences {libs : Libraries}
  (s : session_state) (m : model_dict) (f : UploadedFile) (text : str)
  (num_questions : nat) (g : str -> str) :
  models s = Some m ->
  process_document (Some f) = Returns (Some text) ->
  truthy text = true ->
  let surviving :=
    List.map strip
      (filter (fun u => 5 <? length (split_ws u)) (split_on dot text)) in
  let selected := firstn num_questions surviving in
  (forall u, In u selected ->
             quiz_gen m (prompt_of u) question_max_length = Returns (g u)) ->
  exists r,
    quiz_interface s (Some f) num_questions true = Quiz r
    /\ prompts r
       = List.map (fun u => lit "generate question: " ++ firstn 200 u) selected
    /\ items r
       = List.map (item_of g) (combine (seq 1 (length selected)) selected)
    /\ length (items r) = Nat.min num_questions (length surviving)
    /\ failure r = None
    /\ (num_questions = 5 -> length surviving = 2 -> length (items r) = 2).
Proof.
  intros Hm Hp Ht surviving selected Hg.
  exists (generate_quiz m text num_questions).
  assert (E : generate_quiz m text num_questions
    = {| prompts := List.map prompt_of selected;
         items := List.map (item_of g)
                    (combine (seq 1 (length selected)) selected);
         failure := None |}).
  { unfold generate_quiz. rewrite slice_from_0.
    now apply quiz_loop_all_return. }
  assert (L : length (items (generate_quiz m text num_questions))
              = Nat.min num_questions (length surviving)).
  { rewrite E. cbn [items]. rewrite length_map, numbered_length.
    unfold selected. apply length_firstn. }
  split.
  { unfold quiz_interface. now rewrite Hm, Hp, Ht. }
  rewrite L, E. cbn [prompts items failure].
  split.
  { apply map_ext. intros u. unfold prompt_of. now rewrite slice_from_0. }
  split; [reflexivity|]. split; [reflexivity|]. split; [reflexivity|].
  intros -> ->. reflexivity.
Qed.

Lemma quiz_of_first_surviving_sentences_witness :
  let s := ready_session (9 # 10) in
  models s = Some (demo_models (9 # 10))
  /\ @process_document plain_text_only (Some lesson_txt)
     = Returns (Some two_sentences)
  /\ truthy two_sentences = true
  /\ sentences two_sentences
     = [lit "This is the first sentence of eight words";
        lit "Another sentence that has more than five words"]
  /\ exists r,
       @quiz_interface plain_text_only s (Some lesson_txt) 5 true = Quiz r
       /\ length (items r) = 2 /\ failure r = None.
Proof.
  intros s.
  assert (Hm : models s = Some (demo_models (9 # 10))) by reflexivity.
  assert (Hp : @process_document plain_text_only (Some lesson_txt)
               = Returns (Some two_sentences)) by reflexivity.
  assert (Ht : truthy two_sentences = true) by reflexivity.
  split; [exact Hm|]. split; [exact Hp|]. split; [exact Ht|].
  split; [reflexivity|].
  destruct (@quiz_of_first_surviving_sentences plain_text_only s
              (demo_models (9 # 10)) lesson_txt two_sentences 5
              (fun u => prompt_of u ++ lit "?") Hm Hp Ht)
    as (r & Hr & _ & _ & _ & Hf & H2).
  - intros u Hu. reflexivity.
  - exists r. split; [exact Hr|]. split; [|exact Hf].
    apply H2; reflexivity.
Defined.

End QuizFacts.

(** * Further properties of the program *)

(** ** The windows of the summarizer *)

Section WindowFacts.
Import Chunker AIModels StudyAssistantApp Inputs.

Lemma range_count_succ (n w : nat) :
  0 < w -> 0 < n -> (n + w - 1) / w = S ((n - w + w - 1) / w).
Proof.
  intros Hw Hn. destruct (Nat.le_gt_cases n w) as [L|G].
  - replace (n - w) with 0 by lia.
    rewrite (Nat.div_small (0 + w - 1) w) by lia.
    symmetry. apply (Nat.div_unique (n + w - 1) w 1 (n - 1)); lia.
  - replace (n + w - 1) with ((n - w + w - 1) + 1 * w) by lia.
    rewrite Nat.div_add by lia. lia.
Qed.

Lemma chunks_nil (w : nat) : 0 < w -> chunks w [] = [].
Proof.
  intros Hw. unfold chunks, range. simpl length.
  now rewrite (Nat.div_small (0 - 0 + w - 1) w) by lia.
Qed.

Lemma chunks_unfold (w : nat) (text : str) :
  0 < w -> text <> [] ->
  chunks w text = firstn w text :: chunks w (skipn w text).
Proof.
  intros Hw Ht.
  assert (Hn : 0 < length text) by (destruct text; [contradiction|simpl; lia]).
  unfold chunks, range. rewrite !Nat.sub_0_r, length_skipn.
  rewrite (range_count_succ Hw Hn).
  cbn [seq List.map]. f_equal.
  - rewrite slice_window. reflexivity.
  - rewrite <- seq_shift, !map_map. apply map_ext. intros k.
    rewrite !slice_window, skipn_skipn. f_equal. f_equal. lia.
Qed.

Lemma chunks_nonempty (w : nat) (text : str) :
  0 < w -> chunks w text <> [] -> text <> [].
Proof. intros Hw H E. subst. now rewrite chunks_nil in H. Qed.

Lemma chunks_sizes_upto (w : nat) (m : nat) (text : str) :
  0 < w -> length text <= m ->
  Forall (fun c => 1 <= length c <= w) (chunks w text)
  /\ forall k, S k < length (chunks w text) ->
               length (nth k (chunks w text) []) = w.
Proof.
  intros Hw. revert text. induction m as [|m IH]; intros text Hm.
  - destruct text; [|simpl in Hm; lia]. rewrite chunks_nil by exact Hw.
    split; [constructor|]. simpl. intros k Hk. lia.
  - destruct text as [|c text].
    { rewrite chunks_nil by exact Hw. split; [constructor|].
      simpl. intros k Hk. lia. }
    rewrite chunks_unfold by (exact Hw || discriminate).
    set (t := c :: text) in *.
    assert (Ht : 0 < length t) by (simpl; lia).
    destruct (IH (skipn w t)) as [IH1 IH2].
    { rewrite length_skipn. lia. }
    split.
    + constructor; [|exact IH1]. rewrite length_firstn. lia.
    + intros [|k] Hk; cbn [nth length] in *.
      * assert (Hne : chunks w (skipn w t) <> [])
          by (destruct (chunks w (skipn w t)); [simpl in Hk; lia|discriminate]).
        apply (chunks_nonempty Hw) in Hne.
        assert (w < length t).
        { destruct (Nat.le_gt_cases (length t) w) as [L|G]; [|exact G].
          exfalso. apply Hne. apply skipn_all2. exact L. }
        rewrite length_firstn. lia.
      * apply IH2. lia.
Qed.

Lemma firstn_chunks (w k : nat) (text : str) :
  0 < w -> firstn k (chunks w text) = chunks w (firstn (k * w) text).
Proof.
  intros Hw. revert text. induction k as [|k IH]; intros text.
  - simpl. now rewrite chunks_nil.
  - destruct text as [|c text].
    { rewrite firstn_nil, chunks_nil by exact Hw. reflexivity. }
    set (t := c :: text).
    rewrite (chunks_unfold (text := t) Hw) by discriminate.
    cbn [firstn]. rewrite IH.
    assert (Hne : firstn (S k * w) t <> []).
    { destruct w; [lia|]. discriminate. }
    rewrite (chunks_unfold Hw Hne).
    rewrite firstn_firstn, skipn_firstn_comm. f_equal.
    + f_equal. simpl. lia.
    + f_equal. f_equal. simpl. lia.
Qed.

(** X1: every window handed to the summarizer is non-empty and has at
    most 3000 characters, and every window but the last has exactly
    3000. *)
Theorem chunk_sizes (text : str) :
  Forall (fun c => 1 <= length c <= 3000) (chunks max_input text)
  /\ forall k, S k < length (chunks max_input text) ->
               length (nth k (chunks max_input text) []) = 3000.
Proof.
  apply (chunks_sizes_upto (w := max_input) (m := length text)).
  - unfold max_input. lia.
  - lia.
Qed.

Lemma chunk_sizes_witness :
  S 1 < length (chunks max_input (numbered_text 7000))
  /\ length (nth 1 (chunks max_input (numbered_text 7000)) []) = 3000.
Proof.
  assert (H : S 1 < length (chunks max_input (numbered_text 7000)))
    by (vm_compute; lia).
  split; [exact H|].
  exact (proj2 (chunk_sizes (numbered_text 7000)) 1 H).
Defined.

(** X2: a text of at most 3000 characters is summarized as the single
    window that is the whole text, and the empty text has no window. *)
Theorem short_text_is_one_chunk (text : str) :
  chunks max_input [] = []
  /\ (0 < length text <= 3000 -> chunks max_input text = [text]).
Proof.
  assert (Hw : 0 < max_input) by (unfold max_input; lia).
  split; [now apply chunks_nil|].
  intros [H0 H1].
  rewrite chunks_unfold; [|exact Hw|destruct text; [simpl in H0; lia|discriminate]].
  rewrite firstn_all2, skipn_all2 by (unfold max_input; lia).
  now rewrite chunks_nil.
Qed.

Lemma short_text_is_one_chunk_witness :
  0 < length two_sentences <= 3000
  /\ chunks max_input two_sentences = [two_sentences].
Proof.
  assert (H : 0 < length two_sentences <= 3000) by (vm_compute; lia).
  split; [exact H|].
  exact (proj2 (short_text_is_one_chunk two_sentences) H).
Defined.

(** X3: only the first 9000 characters of a text can reach the
    summarizer.  Two pasted texts that agree on their first 9000
    characters lead to the same summarizer calls and to the same
    summary text, or to the same error. *)
Theorem summary_reads_first_9000 {libs : DocumentProcessor.Libraries}
  (s : session_state) (m : model_dict) (text text' : str)
  (max_length min_length : nat) :
  models s = Some m ->
  truthy text = true -> truthy text' = true ->
  firstn 9000 text = firstn 9000 text' ->
  let r := summarization_interface s (PasteText text) max_length min_length true in
  let r' := summarization_interface s (PasteText text') max_length min_length true in
  summarized r = summarized r'
  /\ (forall final_summary ow sw c,
        summary_page r = Summary final_summary ow sw c ->
        summary_page r'
        = Summary final_summary (length (split_ws text'))
                  (length (split_ws final_summary))
                  (compression_metric final_summary text'))
  /\ (forall e, summary_page r = SummaryError e -> summary_page r' = SummaryError e).
Proof.
  intros Hm Ht Ht' H9 r r'.
  assert (Hw : 0 < max_input) by (unfold max_input; lia).
  assert (E : slice (chunks max_input text) 0 chunk_limit
              = slice (chunks max_input text') 0 chunk_limit).
  { rewrite !slice_from_0, !(firstn_chunks _ _ Hw).
    replace (chunk_limit * max_input) with 9000 by (vm_compute; reflexivity).
    now rewrite H9. }
  unfold r, r', summarization_interface. rewrite Hm. cbn [truthy_opt].
  rewrite Ht, Ht'. unfold generate_summary. rewrite <- E.
  destruct (summarize_chunks (summarizer m) max_length min_length []
              (slice (chunks max_input text) 0 chunk_limit))
    as [calls [summaries|e]]; cbn [summarized summary_page].
  - split; [reflexivity|]. split.
    + intros fs ow sw c H. injection H as <- _ _ _. reflexivity.
    + intros e H. discriminate H.
  - split; [reflexivity|]. split.
    + intros fs ow sw c H. discriminate H.
    + intros e' H. exact H.
Qed.

Lemma summary_reads_first_9000_witness :
  let s := ready_session (9 # 10) in
  let r := @summarization_interface DocumentProcessor.plain_text_only s
             (PasteText long_text) 130 30 true in
  let r' := @summarization_interface DocumentProcessor.plain_text_only s
              (PasteText (firstn 9000 long_text)) 130 30 true in
  firstn 9000 long_text = firstn 9000 (firstn 9000 long_text)
  /\ summarized r = summarized r'.
Proof.
  intros s r r'.
  assert (Hm : models s = Some (demo_models (9 # 10))) by reflexivity.
  assert (Ht : truthy long_text = true) by reflexivity.
  assert (Ht' : truthy (firstn 9000 long_text) = true) by (vm_compute; reflexivity).
  assert (H9 : firstn 9000 long_text = firstn 9000 (firstn 9000 long_text))
    by (vm_compute; reflexivity).
  split; [exact H9|].
  exact (proj1 (@summary_reads_first_9000 DocumentProcessor.plain_text_only s
                  (demo_models (9 # 10)) long_text (firstn 9000 long_text)
                  130 30 Hm Ht Ht' H9)).
Defined.

End WindowFacts.

(** ** More on lists *)

Section MoreListFacts.
Context {A : Type}.

Lemma In_firstn (x : A) (n : nat) (l : list A) : In x (firstn n l) -> In x l.
Proof.
  intros H. rewrite <- (firstn_skipn n l). apply in_or_app. now left.
Qed.

Lemma In_skipn (x : A) (n : nat) (l : list A) : In x (skipn n l) -> In x l.
Proof.
  intros H. rewrite <- (firstn_skipn n l). apply in_or_app. now right.
Qed.

Lemma filter_none (f : A -> bool) (l : list A) :
  (forall x, In x l -> f x = false) -> filter f l = [].
Proof.
  induction l as [|x l IH]; intros H; simpl; [reflexivity|].
  rewrite (H x (or_introl eq_refl)). apply IH. intros y Hy. apply H. now right.
Qed.

End MoreListFacts.

(** ** Words of a piece of text *)

Section WordFacts.

Lemma words_cur_any (s : str) :
  forall (c c' : char) (cur cur' : str),
    length (split_ws_from (c :: cur) s) = length (split_ws_from (c' :: cur') s).
Proof.
  induction s as [|x s IH]; intros c c' cur cur'; simpl.
  - reflexivity.
  - destruct (isspace x); simpl; [reflexivity|apply IH].
Qed.

Lemma words_cur_bounds (s : str) :
  forall (c : char) (cur : str),
    length (split_ws_from [] s) <= length (split_ws_from (c :: cur) s)
    /\ 1 <= length (split_ws_from (c :: cur) s)
    /\ length (split_ws_from (c :: cur) s) <= S (length (split_ws_from [] s)).
Proof.
  induction s as [|x s IH]; intros c cur; simpl.
  - lia.
  - destruct (isspace x); simpl.
    + lia.
    + rewrite (words_cur_any s x x (c :: cur) []). specialize (IH x []). lia.
Qed.

Lemma words_skipn (i : nat) (s : str) :
  length (split_ws (skipn i s)) <= length (split_ws s).
Proof.
  unfold split_ws. revert s; induction i as [|i IH]; intros s; [simpl; lia|].
  destruct s as [|x s]; [simpl; lia|]. cbn [skipn split_ws_from].
  specialize (IH s).
  destruct (isspace x); [exact IH|].
  pose proof (words_cur_bounds s x []). lia.
Qed.

Lemma words_firstn (s : str) :
  forall (n : nat) (cur : str),
    length (split_ws_from cur (firstn n s)) <= length (split_ws_from cur s).
Proof.
  induction s as [|x s IH]; intros n cur.
  - now rewrite firstn_nil.
  - destruct n as [|n].
    + cbn [firstn]. destruct cur as [|c cur].
      * simpl. lia.
      * pose proof (words_cur_bounds (x :: s) c cur). simpl in *. lia.
    + cbn [firstn split_ws_from]. destruct (isspace x).
      * destruct cur; simpl; [apply IH|]. apply le_n_S, IH.
      * apply IH.
Qed.

(** A piece of a text has no more words than the text. *)
Lemma words_slice (s : str) (i j : nat) :
  length (split_ws (slice s i j)) <= length (split_ws s).
Proof.
  unfold slice, split_ws.
  etransitivity; [apply words_firstn|]. apply words_skipn.
Qed.

End WordFacts.

(** ** Summaries at the edges *)

Section SummaryEdgeFacts.
Import Chunker DocumentProcessor AIModels StudyAssistantApp Inputs.

Lemma chunk_is_slice (w : nat) (text c : str) :
  In c (chunks w text) -> exists i, c = slice text i (i + w).
Proof.
  unfold chunks. intros H. apply in_map_iff in H as (i & <- & _). now exists i.
Qed.

Lemma summarize_chunks_skips_all
  (summarizer : str -> nat -> nat -> outcome str) (max_length min_length : nat)
  (chunks summaries : list str) :
  (forall c, In c chunks -> substantial c = false) ->
  summarize_chunks summarizer max_length min_length summaries chunks
  = ([], Returns summaries).
Proof.
  induction chunks as [|c chunks IH]; intros H; simpl.
  - reflexivity.
  - rewrite (H c (or_introl eq_refl)). apply IH. intros d Hd. apply H. now right.
Qed.

Lemma summarize_chunks_raises
  (summarizer : str -> nat -> nat -> outcome str) (max_length min_length : nat)
  (g : str -> str) (e : exn) (c : str) (after : list str) :
  forall (before chunks summaries : list str),
    filter substantial chunks = before ++ c :: after ->
    (forall b, In b before -> summarizer b max_length min_length = Returns (g b)) ->
    summarizer c max_length min_length = Raises e ->
    summarize_chunks summarizer max_length min_length summaries chunks
    = (before ++ [c], Raises e).
Proof.
  intros before chunks. revert before.
  induction chunks as [|d chunks IH]; intros before summaries Hf Hb Hc.
  - simpl in Hf. destruct before; discriminate.
  - cbn [filter summarize_chunks] in *. destruct (substantial d).
    + destruct before as [|b before]; cbn [app] in Hf; injection Hf as <- Hf.
      * now rewrite Hc.
      * rewrite (Hb d (or_introl eq_refl)).
        rewrite (IH before (summaries ++ [g d]) Hf); [reflexivity| |exact Hc].
        intros b' Hb'. apply Hb. now right.
    + now apply IH.
Qed.

Lemma nearest_0_over (a : Z) : Float64.nearest (inject_Z 0 / inject_Z a) = 0%Q.
Proof.
  unfold Float64.nearest.
  rewrite (Qred_complete (inject_Z 0 / inject_Z a) 0%Q).
  - reflexivity.
  - unfold Qdiv. apply Qmult_0_l.
Qed.

Lemma empty_summary_metric (text : str) :
  compression_metric [] text = lit "100.0%".
Proof.
  unfold compression_metric, compression, Float64.true_divide.
  cbn [length Z.of_nat]. rewrite nearest_0_over.
  vm_compute. reflexivity.
Qed.

(** X4: a text of at most 50 words has no window worth summarizing:
    "Generate Summary" calls the summarizer for no window and shows an
    empty summary of 0 words with a compression of "100.0%", not an
    error. *)
Theorem few_words_empty_summary {libs : Libraries} (s : session_state)
  (m : model_dict) (text : str) (max_length min_length : nat) :
  models s = Some m ->
  truthy text = true ->
  length (split_ws text) <= 50 ->
  let r := summarization_interface s (PasteText text) max_length min_length true in
  summarized r = []
  /\ summary_page r = Summary [] (length (split_ws text)) 0 (lit "100.0%").
Proof.
  intros Hm Ht Hw r. unfold r, summarization_interface.
  rewrite Hm. cbn [truthy_opt]. rewrite Ht. unfold generate_summary.
  rewrite summarize_chunks_skips_all.
  - cbn [summarized summary_page join]. split; [reflexivity|].
    now rewrite empty_summary_metric.
  - intros c Hc. rewrite slice_from_0 in Hc. apply In_firstn in Hc.
    apply chunk_is_slice in Hc as [i ->].
    unfold substantial, substantial_words. apply Nat.ltb_ge.
    etransitivity; [apply words_slice|exact Hw].
Qed.

Lemma few_words_empty_summary_witness :
  let s := ready_session (9 # 10) in
  let r := @summarization_interface plain_text_only s (PasteText two_sentences)
             130 30 true in
  length (split_ws two_sentences) <= 50
  /\ summarized r = []
  /\ summary_page r
     = Summary [] (length (split_ws two_sentences)) 0 (lit "100.0%").
Proof.
  intros s r.
  assert (Hw : length (split_ws two_sentences) <= 50) by (vm_compute; lia).
  split; [exact Hw|].
  exact (@few_words_empty_summary plain_text_only s (demo_models (9 # 10))
           two_sentences 130 30 eq_refl eq_refl Hw).
Defined.

(** X5: a summarizer call that raises ends the whole summary.  When
    the calls for the earlier substantial windows return and the call
    for the next one raises, that window is the last one passed to the
    summarizer and the page shows the error; no summary of the earlier
    windows is shown. *)
Theorem summarizer_failure_discards_summary {libs : Libraries}
  (s : session_state) (m : model_dict) (text : str)
  (max_length min_length : nat) (g : str -> str) (e : exn)
  (before after : list str) (c : str) :
  models s = Some m ->
  truthy text = true ->
  filter substantial (firstn chunk_limit (chunks max_input text))
    = before ++ c :: after ->
  (forall b, In b before -> summarizer m b max_length min_length = Returns (g b)) ->
  summarizer m c max_length min_length = Raises e ->
  let r := summarization_interface s (PasteText text) max_length min_length true in
  summarized r = before ++ [c] /\ summary_page r = SummaryError e.
Proof.
  intros Hm Ht Hf Hb Hc r. unfold r, summarization_interface.
  rewrite Hm. cbn [truthy_opt]. rewrite Ht. unfold generate_summary.
  rewrite slice_from_0.
  rewrite (@summarize_chunks_raises (summarizer m) max_length min_length g e c
             after before _ [] Hf Hb Hc).
  split; reflexivity.
Qed.

Lemma summarizer_failure_discards_summary_witness :
  let s := with_models new_session (Some out_of_memory_models) in
  let windows := firstn chunk_limit (chunks max_input long_text) in
  let r := @summarization_interface plain_text_only s (PasteText long_text)
             130 30 true in
  filter substantial windows = [] ++ nth 0 windows [] :: skipn 1 windows
  /\ summarized r = [] ++ [nth 0 windows []]
  /\ summary_page r = SummaryError out_of_memory.
Proof.
  intros s windows r.
  assert (Hf : filter substantial windows
               = [] ++ nth 0 windows [] :: skipn 1 windows)
    by (vm_compute; reflexivity).
  split; [exact Hf|].
  apply (@summarizer_failure_discards_summary plain_text_only s
           out_of_memory_models long_text 130 30 (fun c => c) out_of_memory
           [] (skipn 1 windows) (nth 0 windows []) eq_refl eq_refl Hf).
  - intros b [].
  - reflexivity.
Defined.

End SummaryEdgeFacts.

(** ** Pieces, stripping and sentences *)

Section SentenceFacts.
Import DocumentProcessor AIModels StudyAssistantApp Inputs.

Local Abbreviation blank := (Forall (fun c : char => isspace c = true)).

Lemma words_substring (pre piece post : str) :
  length (split_ws piece) <= length (split_ws (pre ++ piece ++ post)).
Proof.
  pose proof (words_slice (pre ++ piece ++ post) (length pre)
                (length pre + length piece)) as H.
  replace (slice (pre ++ piece ++ post) (length pre) (length pre + length piece))
    with piece in H; [exact H|].
  rewrite slice_window, skipn_app, skipn_all, Nat.sub_diag. simpl.
  rewrite firstn_app, firstn_all, Nat.sub_diag. simpl.
  symmetry. apply app_nil_r.
Qed.

Lemma words_leading_blank (pre s : str) :
  blank pre -> split_ws (pre ++ s) = split_ws s.
Proof.
  unfold split_ws. induction 1 as [|c pre Hc _ IH]; simpl; [reflexivity|].
  now rewrite Hc.
Qed.

Lemma words_trailing_blank (post : str) :
  blank post ->
  forall (s cur : str), split_ws_from cur (s ++ post) = split_ws_from cur s.
Proof.
  intros Hp.
  assert (B : forall cur, split_ws_from cur post = split_ws_from cur []).
  { induction Hp as [|c post Hc _ IH]; intros cur; simpl; [reflexivity|].
    rewrite Hc. destruct cur; rewrite IH; reflexivity. }
  induction s as [|x s IH]; intros cur; simpl.
  - apply B.
  - destruct (isspace x); [destruct cur|]; now rewrite IH.
Qed.

Lemma lstrip_decompose (s : str) :
  exists pre, s = pre ++ lstrip s /\ blank pre.
Proof.
  induction s as [|c s (pre & E & B)]; simpl.
  - exists []. split; [reflexivity|constructor].
  - destruct (isspace c) eqn:Hc.
    + exists (c :: pre). split; [simpl; congruence|now constructor].
    + exists []. split; [reflexivity|constructor].
Qed.

Lemma lstrip_head (s r : str) (c : char) :
  lstrip s = c :: r -> isspace c = false.
Proof.
  induction s as [|x s IH]; simpl; [discriminate|].
  destruct (isspace x) eqn:Hx; [exact IH|].
  intros E. injection E as <- _. exact Hx.
Qed.

Lemma blank_rev (s : str) : blank s -> blank (rev s).
Proof.
  rewrite !Forall_forall. intros H c Hc. apply H.
  now apply in_rev.
Qed.

Lemma strip_decompose (s : str) :
  exists pre post, s = pre ++ strip s ++ post /\ blank pre /\ blank post.
Proof.
  destruct (lstrip_decompose s) as (pre & E1 & B1).
  destruct (lstrip_decompose (rev (lstrip s))) as (post & E2 & B2).
  exists pre, (rev post). split; [|split; [exact B1|now apply blank_rev]].
  unfold strip. rewrite <- rev_app_distr, <- E2, rev_involutive. exact E1.
Qed.

Lemma strip_ends (s : str) :
  (forall c r, strip s = c :: r -> isspace c = false)
  /\ (forall c r, strip s = r ++ [c] -> isspace c = false).
Proof.
  split; intros c r E.
  - destruct (lstrip_decompose (rev (lstrip s))) as (post & E2 & _).
    unfold strip in E.
    apply (f_equal (@rev char)) in E. rewrite rev_involutive in E.
    rewrite E in E2. apply (f_equal (@rev char)) in E2.
    rewrite rev_involutive, rev_app_distr, rev_involutive in E2.
    simpl in E2. now apply lstrip_head in E2.
  - unfold strip in E.
    apply (f_equal (@rev char)) in E. rewrite rev_involutive in E.
    rewrite rev_app_distr in E. simpl in E. now apply lstrip_head in E.
Qed.

Lemma strip_words (s : str) : split_ws (strip s) = split_ws s.
Proof.
  destruct (strip_decompose s) as (pre & post & E & B1 & B2).
  rewrite E at 2. rewrite (words_leading_blank _ B1).
  unfold split_ws. now rewrite (words_trailing_blank B2).
Qed.

Lemma strip_In (s : str) (c : char) : In c (strip s) -> In c s.
Proof.
  destruct (strip_decompose s) as (pre & post & E & _). intros H.
  rewrite E. apply in_or_app. right. apply in_or_app. now left.
Qed.

Lemma split_on_head (sep : char) (s : str) :
  exists w ws post, split_on sep s = w :: ws /\ s = w ++ post.
Proof.
  induction s as [|c s (w & ws & post & E & Es)]; simpl.
  - now exists [], [], [].
  - destruct (c =? sep)%N.
    + now exists [], (split_on sep s), (c :: s).
    + rewrite E. exists (c :: w), ws, post. split; [reflexivity|].
      simpl. congruence.
Qed.

Lemma split_on_pieces (sep : char) (s piece : str) :
  In piece (split_on sep s) ->
  ~ In sep piece /\ exists pre post, s = pre ++ piece ++ post.
Proof.
  revert piece; induction s as [|c s IH]; intros piece; simpl.
  - intros [<-|[]]. split; [intros []|]. now exists [], [].
  - destruct (c =? sep)%N eqn:Hc.
    + intros [<-|H].
      * split; [intros []|]. now exists [], (c :: s).
      * destruct (IH _ H) as (Hn & pre & post & E). split; [exact Hn|].
        exists (c :: pre), post. simpl. congruence.
    + destruct (split_on_head sep s) as (w & ws & post & E & Es).
      rewrite E. intros [<-|H].
      * destruct (IH w) as (Hn & _); [rewrite E; now left|].
        split.
        -- intros [->|Hin]; [|contradiction].
           now rewrite N.eqb_refl in Hc.
        -- exists [], post. simpl. congruence.
      * destruct (IH piece) as (Hn & pre & post' & E'); [rewrite E; now right|].
        split; [exact Hn|]. exists (c :: pre), post'. simpl. congruence.
Qed.

Lemma sentence_origin (text u : str) :
  In u (sentences text) ->
  exists piece, u = strip piece /\ long_enough piece = true
                /\ In piece (split_on dot text).
Proof.
  unfold sentences. intros H. apply in_map_iff in H as (piece & <- & H).
  apply filter_In in H as [H1 H2]. now exists piece.
Qed.

(** X7: every sentence a quiz question is made from, and shown as its
    reference, contains no full stop, neither starts nor ends with
    whitespace, and has more than five words. *)
Theorem reference_sentences_are_clean (text u : str) :
  In u (sentences text) ->
  ~ In dot u
  /\ 5 < length (split_ws u)
  /\ (forall c r, u = c :: r -> isspace c = false)
  /\ (forall c r, u = r ++ [c] -> isspace c = false).
Proof.
  intros H. destruct (sentence_origin _ _ H) as (piece & -> & Hl & Hp).
  destruct (split_on_pieces _ _ _ Hp) as (Hn & _).
  split; [|split].
  - intros Hd. apply Hn. now apply strip_In.
  - rewrite strip_words. unfold long_enough, min_sentence_words in Hl.
    now apply Nat.ltb_lt in Hl.
  - apply strip_ends.
Qed.

Lemma reference_sentences_are_clean_witness :
  let u := lit "Another sentence that has more than five words" in
  In u (sentences two_sentences)
  /\ ~ In dot u
  /\ 5 < length (split_ws u).
Proof.
  intros u.
  assert (H : In u (sentences two_sentences)) by (right; left; reflexivity).
  destruct (reference_sentences_are_clean two_sentences u H) as (Hd & Hw & _).
  split; [exact H|]. split; [exact Hd|exact Hw].
Defined.

Lemma quiz_loop_raises (quiz_gen : str -> nat -> outcome str) (g : str -> str)
  (e : exn) (u : str) (after : list str) :
  forall (before : list str) (i : nat),
    (forall b, In b before ->
               quiz_gen (prompt_of b) question_max_length = Returns (g b)) ->
    quiz_gen (prompt_of u) question_max_length = Raises e ->
    quiz_loop quiz_gen i (before ++ u :: after)
    = {| prompts := List.map prompt_of (before ++ [u]);
         items := List.map (item_of g) (combine (seq i (length before)) before);
         failure := Some e |}.
Proof.
  induction before as [|b before IH]; intros i Hb Hu.
  - cbn [app quiz_loop]. now rewrite Hu.
  - cbn [app quiz_loop]. rewrite (Hb b (or_introl eq_refl)).
    rewrite (IH (S i)); [reflexivity| |exact Hu].
    intros b' Hb'. apply Hb. now right.
Qed.

Lemma quiz_loop_prompts (quiz_gen : str -> nat -> outcome str)
  (selected : list str) :
  forall i,
    length (prompts (quiz_loop quiz_gen i selected)) <= length selected
    /\ length (items (quiz_loop quiz_gen i selected))
       <= length (prompts (quiz_loop quiz_gen i selected))
    /\ forall p, In p (prompts (quiz_loop quiz_gen i selected)) ->
                 exists u, In u selected /\ p = prompt_of u.
Proof.
  induction selected as [|u selected IH]; intros i; cbn [quiz_loop].
  - simpl. split; [lia|]. split; [lia|]. intros p [].
  - destruct (quiz_gen (prompt_of u) question_max_length) as [q|e];
      cbn [prompts items length].
    + destruct (IH (S i)) as (H1 & H2 & H3).
      split; [lia|]. split; [lia|].
      intros p [<-|Hp].
      * exists u. split; [now left|reflexivity].
      * destruct (H3 p Hp) as (v & Hv & ->). exists v. split; [now right|reflexivity].
    + split; [lia|]. split; [lia|].
      intros p [<-|[]]. exists u. split; [now left|reflexivity].
Qed.

Lemma startswith_app (p s : str) : startswith (p ++ s) p = true.
Proof.
  induction p as [|c p IH]; simpl; [now destruct s|].
  now rewrite N.eqb_refl, IH.
Qed.

Lemma quiz_interface_generates {libs : Libraries} (s : session_state)
  (m : model_dict) (f : UploadedFile) (text : str) (num_questions : nat) :
  models s = Some m ->
  process_document (Some f) = Returns (Some text) ->
  truthy text = true ->
  quiz_interface s (Some f) num_questions true
  = Quiz (quiz_loop (quiz_gen m) 1 (firstn num_questions (sentences text))).
Proof.
  intros Hm Hp Ht. unfold quiz_interface. rewrite Hm, Hp, Ht.
  unfold generate_quiz. now rewrite slice_from_0.
Qed.

(** X8: a question generator call that raises ends the quiz.  The
    questions generated before it stay on the page with their numbers,
    the failing prompt is the last one passed to the generator, and the
    sentences after it get no question. *)
Theorem generator_failure_keeps_earlier_questions {libs : Libraries}
  (s : session_state) (m : model_dict) (f : UploadedFile) (text : str)
  (num_questions : nat) (g : str -> str) (e : exn)
  (before after : list str) (u : str) :
  models s = Some m ->
  process_document (Some f) = Returns (Some text) ->
  truthy text = true ->
  firstn num_questions (sentences text) = before ++ u :: after ->
  (forall b, In b before ->
             quiz_gen m (prompt_of b) question_max_length = Returns (g b)) ->
  quiz_gen m (prompt_of u) question_max_length = Raises e ->
  quiz_interface s (Some f) num_questions true
  = Quiz {| prompts := List.map prompt_of (before ++ [u]);
            items := List.map (item_of g)
                       (combine (seq 1 (length before)) before);
            failure := Some e |}.
Proof.
  intros Hm Hp Ht Hs Hb Hu.
  rewrite (quiz_interface_generates _ _ _ Hm Hp Ht), Hs.
  now rewrite (@quiz_loop_raises (quiz_gen m) g e u after before 1 Hb Hu).
Qed.

Lemma generator_failure_keeps_earlier_questions_witness :
  let s := with_models new_session (Some short_prompt_models) in
  let first := lit "This is the first sentence of eight words" in
  let second := lit "Another sentence that has more than five words" in
  firstn 5 (sentences two_sentences) = [first] ++ second :: []
  /\ @quiz_interface plain_text_only s (Some lesson_txt) 5 true
     = Quiz {| prompts := [prompt_of first; prompt_of second];
               items := [{| number := 1;
                            question := prompt_of first ++ lit "?";
                            reference := first |}];
               failure := Some prompt_too_long |}.
Proof.
  intros s first second.
  assert (Hs : firstn 5 (sentences two_sentences) = [first] ++ second :: [])
    by reflexivity.
  split; [exact Hs|].
  apply (@generator_failure_keeps_earlier_questions plain_text_only s
           short_prompt_models lesson_txt two_sentences 5
           (fun u => prompt_of u ++ lit "?") prompt_too_long
           [first] [] second eq_refl eq_refl eq_refl Hs).
  - intros b [<-|[]]. reflexivity.
  - reflexivity.
Defined.

(** X9: a quiz never calls the generator more often than the number of
    questions asked for, never shows more questions than it made calls,
    and every prompt is the instruction "generate question: " followed
    by at most 200 characters. *)
Theorem quiz_prompts_are_bounded {libs : Libraries} (s : session_state)
  (uploaded_file : option UploadedFile) (num_questions : nat) (r : quiz_run) :
  quiz_interface s uploaded_file num_questions true = Quiz r ->
  length (prompts r) <= num_questions
  /\ length (items r) <= length (prompts r)
  /\ forall p, In p (prompts r) ->
               startswith p (lit "generate question: ") = true
               /\ length p <= 219.
Proof.
  unfold quiz_interface.
  destruct (models s) as [m|]; [|discriminate].
  destruct uploaded_file as [f|]; [|discriminate].
  destruct (process_document (Some f)) as [[t|]|e]; try discriminate.
  destruct (truthy t); [|discriminate].
  intros H. injection H as <-. unfold generate_quiz.
  destruct (quiz_loop_prompts (quiz_gen m)
              (slice (sentences t) 0 num_questions) 1) as (H1 & H2 & H3).
  split; [|split; [exact H2|]].
  - etransitivity; [exact H1|]. rewrite slice_from_0. apply firstn_le_length.
  - intros p Hp. destruct (H3 p Hp) as (u & _ & ->). unfold prompt_of.
    split; [apply startswith_app|].
    rewrite length_app, slice_from_0.
    pose proof (firstn_le_length prompt_limit u) as L.
    change (length (lit "generate question: ")) with 19.
    unfold prompt_limit in L |- *. lia.
Qed.

Lemma quiz_prompts_are_bounded_witness :
  exists r,
    @quiz_interface plain_text_only (ready_session (9 # 10))
      (Some lesson_txt) 5 true = Quiz r
    /\ length (prompts r) <= 5.
Proof.
  eexists. split; [reflexivity|].
  exact (proj1 (@quiz_prompts_are_bounded plain_text_only
                  (ready_session (9 # 10)) (Some lesson_txt) 5 _ eq_refl)).
Defined.

(** X10: a document of at most five words gives an empty quiz: no
    sentence survives, the generator is not called, no question is shown
    and no error is raised. *)
Theorem few_words_empty_quiz {libs : Libraries} (s : session_state)
  (m : model_dict) (f : UploadedFile) (text : str) (num_questions : nat) :
  models s = Some m ->
  process_document (Some f) = Returns (Some text) ->
  truthy text = true ->
  length (split_ws text) <= 5 ->
  sentences text = []
  /\ quiz_interface s (Some f) num_questions true
     = Quiz {| prompts := []; items := []; failure := None |}.
Proof.
  intros Hm Hp Ht Hw.
  assert (E : sentences text = []).
  { unfold sentences.
    rewrite filter_none; [reflexivity|].
    intros piece Hin.
    destruct (split_on_pieces _ _ _ Hin) as (_ & pre & post & Es).
    unfold long_enough, min_sentence_words.
    apply Nat.ltb_ge.
    etransitivity; [apply (words_substring pre piece post)|].
    now rewrite <- Es. }
  split; [exact E|].
  rewrite (quiz_interface_generates _ _ _ Hm Hp Ht), E, firstn_nil.
  reflexivity.
Qed.

Lemma few_words_empty_quiz_witness :
  length (split_ws four_words) <= 5
  /\ @quiz_interface plain_text_only (ready_session (9 # 10))
       (Some short_txt) 5 true
     = Quiz {| prompts := []; items := []; failure := None |}.
Proof.
  assert (Hw : length (split_ws four_words) <= 5) by (vm_compute; lia).
  split; [exact Hw|].
  exact (proj2 (@few_words_empty_quiz plain_text_only (ready_session (9 # 10))
                  (demo_models (9 # 10)) short_txt four_words 5
                  eq_refl eq_refl eq_refl Hw)).
Defined.

End SentenceFacts.

(** ** Extracted text *)

Section ExtractedTextFacts.
Import DocumentProcessor AIModels StudyAssistantApp Inputs.

Lemma pages_length (texts : list str) :
  length (concat (List.map (fun t => t ++ newline) texts))
  = list_sum (List.map (@length char) texts) + length texts.
Proof.
  induction texts as [|t texts IH]; simpl; [reflexivity|].
  rewrite !length_app, IH. simpl. lia.
Qed.

Lemma pages_truthy (texts : list str) :
  truthy (concat (List.map (fun t => t ++ newline) texts)) = true
  <-> texts <> [].
Proof.
  destruct texts as [|t texts]; simpl.
  - split; [discriminate|congruence].
  - split; [discriminate|]. intros _. destruct t; reflexivity.
Qed.

Lemma pdf_text_of_pages {libs : Libraries} (f : UploadedFile) (texts : list str) :
  PdfReader (content f) = Returns (List.map Returns texts) ->
  extract_text_from_pdf f
  = Returns (Some (concat (List.map (fun t => t ++ newline) texts))).
Proof.
  intros H. unfold extract_text_from_pdf. rewrite H. simpl.
  now rewrite extract_pages_all.
Qed.

(** X11: the text extracted from a PDF has one character more per page
    than the pages' own text, so it is non-empty exactly when the PDF
    has at least one page, whether or not any page has text. *)
Theorem pdf_text_length {libs : Libraries} (f : UploadedFile) (texts : list str) :
  PdfReader (content f) = Returns (List.map Returns texts) ->
  exists text,
    extract_text_from_pdf f = Returns (Some text)
    /\ length text = list_sum (List.map (@length char) texts) + length texts
    /\ (truthy text = true <-> texts <> []).
Proof.
  intros H. eexists. split; [apply (pdf_text_of_pages _ _ H)|].
  split; [apply pages_length|]. apply pages_truthy.
Qed.

Lemma pdf_text_length_witness :
  @PdfReader scanned_reader (content scan_pdf)
    = Returns (List.map Returns [[]; []; []])
  /\ exists text,
       @extract_text_from_pdf scanned_reader scan_pdf = Returns (Some text)
       /\ length text = 3.
Proof.
  assert (H : @PdfReader scanned_reader (content scan_pdf)
              = Returns (List.map Returns [[]; []; []])) by reflexivity.
  split; [exact H|].
  destruct (@pdf_text_length scanned_reader scan_pdf [[]; []; []] H)
    as (text & E & L & _).
  exists text. split; [exact E|exact L].
Defined.

(** X12: on the question-answering page a PDF with at least one page,
    all pages extracting, is taken as the session's document exactly
    when its name is not the name of the current document.  Then its
    name becomes the current document and its text, which is only
    newlines when no page has text, becomes the text questions are
    asked of.  Under the current document's name the file is not
    processed and the session keeps what it has. *)
Theorem pdf_with_pages_is_accepted {libs : Libraries} (s : session_state)
  (m : model_dict) (f : UploadedFile) (texts : list str)
  (question : str) (clicked : bool) :
  models s = Some m ->
  format_of f = Some PDF ->
  PdfReader (content f) = Returns (List.map Returns texts) ->
  texts <> [] ->
  let r := question_answering_interface s (Some f) question clicked in
  (current_document s <> Some (name f) ->
   extracted r = true
   /\ current_document (state_after r) = Some (name f)
   /\ document_text (state_after r)
      = Some (concat (List.map (fun t => t ++ newline) texts)))
  /\ (current_document s = Some (name f) ->
      extracted r = false /\ state_after r = s).
Proof.
  intros Hm Hf Hp Ht r.
  destruct (qa_run_shape s f question clicked Hm) as (He & Hs & _).
  fold r in He, Hs. rewrite He, Hs. split; intros Hc.
  - destruct (differs (current_document s) (name f)) eqn:D.
    + rewrite process_document_dispatch, Hf, (pdf_text_of_pages _ _ Hp).
      cbn [returned after_processing].
      rewrite (proj2 (pages_truthy texts) Ht). repeat split; reflexivity.
    + apply differs_false_iff in D. contradiction.
  - rewrite (proj2 (differs_false_iff _ _) Hc). split; reflexivity.
Qed.

Lemma pdf_with_pages_is_accepted_witness :
  let s := ready_session (9 # 10) in
  let r := @question_answering_interface scanned_reader s (Some scan_pdf)
             what_is_this false in
  let r' := @question_answering_interface scanned_reader (state_after r)
              (Some scan_pdf) what_is_this false in
  current_document s <> Some (name scan_pdf)
  /\ @format_of scanned_reader scan_pdf = Some PDF
  /\ (extracted r = true
      /\ current_document (state_after r) = Some (name scan_pdf)
      /\ document_text (state_after r) = Some (newline ++ newline ++ newline))
  /\ current_document (state_after r) = Some (name scan_pdf)
  /\ (extracted r' = false /\ state_after r' = state_after r).
Proof.
  intros s r r'.
  assert (Hc : current_document s <> Some (name scan_pdf)) by discriminate.
  assert (Hf : @format_of scanned_reader scan_pdf = Some PDF) by reflexivity.
  assert (Ht : [@nil char; []; []] <> []) by discriminate.
  assert (Hc' : current_document (state_after r) = Some (name scan_pdf))
    by reflexivity.
  split; [exact Hc|]. split; [exact Hf|].
  split.
  - exact (proj1 (@pdf_with_pages_is_accepted scanned_reader s
                    (demo_models (9 # 10)) scan_pdf [[]; []; []]
                    what_is_this false eq_refl Hf eq_refl Ht) Hc).
  - split; [exact Hc'|].
    exact (proj2 (@pdf_with_pages_is_accepted scanned_reader (state_after r)
                    (demo_models (9 # 10)) scan_pdf [[]; []; []]
                    what_is_this false eq_refl Hf eq_refl Ht) Hc').
Defined.

Lemma split_on_without (sep : char) (p : str) :
  ~ In sep p -> split_on sep p = [p].
Proof.
  induction p as [|c p IH]; intros H; simpl; [reflexivity|].
  destruct (c =? sep)%N eqn:E.
  - apply N.eqb_eq in E. subst. exfalso. apply H. now left.
  - rewrite IH; [reflexivity|]. intros Hin. apply H. now right.
Qed.

Lemma split_on_app_sep (sep : char) (p rest : str) :
  ~ In sep p -> split_on sep (p ++ sep :: rest) = p :: split_on sep rest.
Proof.
  induction p as [|c p IH]; intros H; simpl.
  - now rewrite N.eqb_refl.
  - destruct (c =? sep)%N eqn:E.
    + apply N.eqb_eq in E. subst. exfalso. apply H. now left.
    + rewrite IH; [reflexivity|]. intros Hin. apply H. now right.
Qed.

Lemma split_on_join (ps : list str) :
  ps <> [] -> (forall p, In p ps -> ~ In 10%N p) ->
  split_on 10%N (join newline ps) = ps.
Proof.
  induction ps as [|p ps IH]; intros Hne H; [contradiction|].
  destruct ps as [|q ps].
  - simpl. apply split_on_without, H. now left.
  - change (join newline (p :: q :: ps))
      with (p ++ 10%N :: join newline (q :: ps)).
    rewrite split_on_app_sep by (apply H; now left).
    rewrite IH; [reflexivity|discriminate|].
    intros p' Hp'. apply H. now right.
Qed.

(** X13: the text extracted from a DOCX file keeps the paragraph
    boundaries: when the document has at least one paragraph and no
    paragraph contains a newline, splitting the text at its newlines
    gives back the paragraphs, empty ones included. *)
Theorem docx_text_splits_into_paragraphs {libs : Libraries}
  (f : UploadedFile) (paragraphs : list str) :
  Document (content f) = Returns paragraphs ->
  paragraphs <> [] ->
  (forall p, In p paragraphs -> ~ In 10%N p) ->
  exists text,
    extract_text_from_docx f = Returns (Some text)
    /\ split_on 10%N text = paragraphs.
Proof.
  intros Hd Hne Hp. exists (join newline paragraphs). split.
  - unfold extract_text_from_docx. now rewrite Hd.
  - now apply split_on_join.
Qed.

Lemma docx_text_splits_into_paragraphs_witness :
  @Document docx_reader (content report_docx) = Returns three_paragraphs
  /\ exists text,
       @extract_text_from_docx docx_reader report_docx = Returns (Some text)
       /\ split_on 10%N text = three_paragraphs.
Proof.
  assert (Hd : @Document docx_reader (content report_docx)
               = Returns three_paragraphs) by reflexivity.
  split; [exact Hd|].
  apply (@docx_text_splits_into_paragraphs docx_reader report_docx
           three_paragraphs Hd).
  - discriminate.
  - intros p Hp Hin. unfold three_paragraphs in Hp.
    destruct Hp as [<-|[<-|[<-|[]]]]; vm_compute in Hin; intuition discriminate.
Defined.

End ExtractedTextFacts.

(** ** The session across reruns *)

Section SessionFacts.
Import DocumentProcessor AIModels StudyAssistantApp Main Inputs.

Local Abbreviation consistent s :=
  ((current_document s = None <-> document_text s = None)
   /\ document_text s <> Some []).

Lemma differs_true (current : option str) (file_name : str) :
  current <> Some file_name -> differs current file_name = true.
Proof.
  intros H. destruct (differs current file_name) eqn:D; [reflexivity|].
  apply differs_false_iff in D. contradiction.
Qed.

Lemma after_processing_nothing (s : session_state) (f : UploadedFile)
  (text : option str) :
  text = None \/ text = Some [] -> after_processing s f text = s.
Proof. intros [->| ->]; reflexivity. Qed.

(** X14: when a new file cannot be extracted, or extracts to nothing,
    the session silently keeps the previous document: the file is
    processed, the state stays as it was, and a question asked while the
    new file is in the uploader is answered from the text of the
    previous document. *)
Theorem failed_upload_keeps_previous_text {libs : Libraries}
  (s : session_state) (m : model_dict) (f : UploadedFile)
  (previous question : str) :
  models s = Some m ->
  document_text s = Some previous ->
  truthy previous = true ->
  current_document s <> Some (name f) ->
  (process_document (Some f) = Returns None
   \/ process_document (Some f) = Returns (Some [])) ->
  truthy question = true ->
  let r := question_answering_interface s (Some f) question true in
  extracted r = true
  /\ state_after r = s
  /\ dispatched r = [(question, firstn max_context previous)].
Proof.
  intros Hm Ht Tt Hc Hp Tq r.
  destruct (qa_run_shape s f question true Hm) as (He & Hs & _ & Hq).
  fold r in He, Hs, Hq. rewrite (differs_true Hc) in He, Hs.
  assert (E : state_after r = s).
  { rewrite Hs. apply after_processing_nothing.
    destruct Hp as [-> | ->]; [now left|now right]. }
  split; [exact He|]. split; [exact E|].
  rewrite E, (question_input_asked m s question Ht Tt Tq) in Hq.
  unfold get_answer in Hq. rewrite slice_from_0 in Hq.
  exact (f_equal fst Hq).
Qed.

Lemma failed_upload_keeps_previous_text_witness :
  let s := fst (@upload_all plain_text_only (ready_session (9 # 10)) [notes_v1]) in
  let r := @question_answering_interface plain_text_only s (Some broken_txt)
             what_is_this true in
  document_text s = Some (lit "old")
  /\ current_document s <> Some (name broken_txt)
  /\ @process_document plain_text_only (Some broken_txt) = Returns None
  /\ extracted r = true
  /\ state_after r = s
  /\ dispatched r = [(what_is_this, firstn max_context (lit "old"))].
Proof.
  intros s r.
  assert (Ht : document_text s = Some (lit "old")) by reflexivity.
  assert (Hc : current_document s <> Some (name broken_txt)) by discriminate.
  assert (Hp : @process_document plain_text_only (Some broken_txt) = Returns None)
    by reflexivity.
  split; [exact Ht|]. split; [exact Hc|]. split; [exact Hp|].
  exact (@failed_upload_keeps_previous_text plain_text_only s
           (demo_models (9 # 10)) broken_txt (lit "old") what_is_this
           eq_refl Ht eq_refl Hc (or_introl Hp) eq_refl).
Defined.

(** X15: a file that cannot be extracted, or extracts to nothing, and
    whose name is not the name of the session's current document, is
    processed again on every rerun of the question-answering page for
    as long as it stays in the uploader; a file that carries the name
    of the current document is never processed.  In both cases the
    session state never changes. *)
Theorem failed_upload_is_processed_every_rerun {libs : Libraries}
  (s : session_state) (m : model_dict) (f : UploadedFile) (n : nat) :
  models s = Some m ->
  (process_document (Some f) = Returns None
   \/ process_document (Some f) = Returns (Some [])) ->
  (current_document s <> Some (name f) ->
   upload_all s (repeat f n) = (s, repeat true n))
  /\ (current_document s = Some (name f) ->
      upload_all s (repeat f n) = (s, repeat false n)).
Proof.
  intros Hm Hp. split; intros Hc; (induction n as [|n IH]; [reflexivity|]);
    cbn [repeat]; destruct (upload_step s f (repeat f n) Hm) as (_ & E).
  - rewrite (differs_true Hc) in E.
    rewrite after_processing_nothing in E
      by (destruct Hp as [-> | ->]; [now left|now right]).
    now rewrite E, IH.
  - rewrite (proj2 (differs_false_iff _ _) Hc) in E.
    now rewrite E, IH.
Qed.

Lemma failed_upload_is_processed_every_rerun_witness :
  let s := ready_session (9 # 10) in
  let s' := fst (@upload_all plain_text_only s [notes_v1]) in
  let notes_broken := file "notes.txt" "text/plain" [104; 255]%N in
  current_document s <> Some (name empty_txt)
  /\ @process_document plain_text_only (Some empty_txt) = Returns (Some [])
  /\ @upload_all plain_text_only s (repeat empty_txt 3) = (s, repeat true 3)
  /\ current_document s' = Some (name notes_broken)
  /\ @process_document plain_text_only (Some notes_broken) = Returns None
  /\ @upload_all plain_text_only s' (repeat notes_broken 3)
     = (s', repeat false 3).
Proof.
  intros s s' notes_broken.
  assert (Hc : current_document s <> Some (name empty_txt)) by discriminate.
  assert (Hp : @process_document plain_text_only (Some empty_txt)
               = Returns (Some [])) by reflexivity.
  assert (Hc' : current_document s' = Some (name notes_broken)) by reflexivity.
  assert (Hp' : @process_document plain_text_only (Some notes_broken)
                = Returns None) by reflexivity.
  split; [exact Hc|]. split; [exact Hp|].
  split.
  - exact (proj1 (@failed_upload_is_processed_every_rerun plain_text_only s
                    (demo_models (9 # 10)) empty_txt 3 eq_refl
                    (or_intror Hp)) Hc).
  - split; [exact Hc'|]. split; [exact Hp'|].
    exact (proj2 (@failed_upload_is_processed_every_rerun plain_text_only s'
                    (demo_models (9 # 10)) notes_broken 3 eq_refl
                    (or_introl Hp')) Hc').
Defined.

Lemma sidebar_document (MODELS_AVAILABLE : bool) (world : nat -> provider)
  (clicked : bool) (s : session_state) (p : process) :
  current_document (fst (sidebar MODELS_AVAILABLE world clicked s p))
    = current_document s
  /\ document_text (fst (sidebar MODELS_AVAILABLE world clicked s p))
    = document_text s.
Proof.
  unfold sidebar. destruct (models s); [now split|].
  destruct (MODELS_AVAILABLE && clicked); [|now split].
  destruct (load_models MODELS_AVAILABLE world p). now split.
Qed.

Lemma qa_state_after {libs : Libraries} (s : session_state)
  (uploaded_file : option UploadedFile) (question : str) (clicked : bool) :
  let r := question_answering_interface s uploaded_file question clicked in
  models (state_after r) = models s
  /\ (state_after r = s
      \/ exists f t, truthy t = true
           /\ current_document (state_after r) = Some (name f)
           /\ document_text (state_after r) = Some t).
Proof.
  intros r. destruct (models s) as [m|] eqn:Hm.
  - destruct uploaded_file as [f|].
    + destruct (qa_run_shape s f question clicked Hm) as (_ & Hs & Hm' & _).
      fold r in Hs, Hm'. split; [exact Hm'|]. rewrite Hs.
      destruct (differs (current_document s) (name f)); [|now left].
      destruct (returned (process_document (Some f))) as [t|]; [|now left].
      cbn [after_processing]. destruct (truthy t) eqn:T; [|now left].
      right. now exists f, t.
    + subst r. unfold question_answering_interface. rewrite Hm. simpl.
      split; [exact Hm|now left].
  - subst r. unfold question_answering_interface. rewrite Hm. simpl.
    split; [exact Hm|now left].
Qed.

Lemma main_consistent {libs : Libraries} (MODELS_AVAILABLE : bool)
  (world : nat -> provider) (i : interaction) (s : session_state) (p : process) :
  consistent s -> consistent (fst (fst (main MODELS_AVAILABLE world i s p))).
Proof.
  intros H. unfold main.
  pose proof (sidebar_document MODELS_AVAILABLE world (initialize_clicked i) s p)
    as [Hc Ht].
  destruct (sidebar MODELS_AVAILABLE world (initialize_clicked i) s p) as [s1 p1].
  cbn [fst] in Hc, Ht.
  assert (H1 : consistent s1) by (rewrite Hc, Ht; exact H).
  destruct (selected i) as [|uf q c| | |]; cbn [fst]; try exact H1.
  destruct (qa_state_after s1 uf q c) as (_ & [E|(f & t & T & Ec & Et)]).
  - rewrite E. exact H1.
  - rewrite Ec, Et. split; [split; discriminate|].
    intros X. injection X as ->. discriminate T.
Qed.

(** X16: in every session, whatever the user does, the current document
    name and the cached text are set together, and the cached text is
    never the empty string. *)
Theorem session_document_is_consistent {libs : Libraries}
  (MODELS_AVAILABLE : bool) (world : nat -> provider)
  (runs : list interaction) (p : process) :
  let s := fst (session_run MODELS_AVAILABLE world runs new_session p) in
  (current_document s = None <-> document_text s = None)
  /\ document_text s <> Some [].
Proof.
  assert (G : forall s0 p0, consistent s0 ->
            consistent (fst (session_run MODELS_AVAILABLE world runs s0 p0))).
  { induction runs as [|i runs IH]; intros s0 p0 H; [exact H|].
    cbn [session_run].
    pose proof (main_consistent MODELS_AVAILABLE world i s0 p0 H) as H'.
    destruct (main MODELS_AVAILABLE world i s0 p0) as [[s' p'] pg].
    now apply IH. }
  apply G. simpl. split; [tauto|discriminate].
Qed.

(** X17: loading is all or nothing.  [load_models] yields a model
    dictionary exactly when the packages are installed and all four
    constructors return, the unused embedder included; one constructor
    that raises leaves the session without any model. *)
Theorem load_is_all_or_nothing (MODELS_AVAILABLE : bool) (pr : provider)
  (m : model_dict) :
  load_models_body MODELS_AVAILABLE pr = Some m
  <-> MODELS_AVAILABLE = true
      /\ summarization_pipeline pr = Returns (summarizer m)
      /\ question_answering_pipeline pr = Returns (qa m)
      /\ SentenceTransformer pr = Returns (embedder m)
      /\ text2text_generation_pipeline pr = Returns (quiz_gen m).
Proof.
  unfold load_models_body. destruct MODELS_AVAILABLE; simpl.
  - destruct pr as [[a|e1] [b|e2] [c|e3] [d|e4]]; simpl;
      (split; [intros H; try discriminate H; injection H as <-; now repeat split
              |intros (_ & H1 & H2 & H3 & H4); try discriminate;
               injection H1 as ->; injection H2 as ->;
               injection H3 as ->; injection H4 as ->; now destruct m]).
  - split; [discriminate|]. intros (H & _). discriminate H.
Qed.

Local Abbreviation shared ss p :=
  ((cache_resource p = None -> body_runs p = 0)
   /\ body_runs p <= 1
   /\ forall (id : nat) m, models (ss id) = Some m ->
                           cache_resource p = Some (Some m)).

Lemma main_models {libs : Libraries} (MODELS_AVAILABLE : bool)
  (world : nat -> provider) (i : interaction) (s : session_state) (p : process) :
  let s' := fst (fst (main MODELS_AVAILABLE world i s p)) in
  let p' := snd (fst (main MODELS_AVAILABLE world i s p)) in
  (models s' = models s /\ p' = p)
  \/ (models s = None
      /\ (models s', p') = load_models MODELS_AVAILABLE world p).
Proof.
  unfold main, sidebar.
  destruct (models s) as [m|] eqn:Hm.
  - left. destruct (selected i) as [|uf q c| | |]; cbn [fst snd]; try (now split).
    destruct (qa_state_after s uf q c) as (H & _). rewrite H. now split.
  - destruct (MODELS_AVAILABLE && initialize_clicked i).
    + right. split; [reflexivity|].
      destruct (load_models MODELS_AVAILABLE world p) as [value p1].
      destruct (selected i) as [|uf q c| | |]; cbn [fst snd]; try reflexivity.
      destruct (qa_state_after (with_models s value) uf q c) as (H & _).
      now rewrite H.
    + left. destruct (selected i) as [|uf q c| | |]; cbn [fst snd];
        try (now split).
      destruct (qa_state_after s uf q c) as (H & _). rewrite H. now split.
Qed.

Lemma server_run_shared {libs : Libraries} (MODELS_AVAILABLE : bool)
  (world : nat -> provider) (runs : list (nat * interaction)) :
  forall (ss : sessions) (p : process),
    shared ss p ->
    shared (fst (server_run MODELS_AVAILABLE world runs ss p))
           (snd (server_run MODELS_AVAILABLE world runs ss p)).
Proof.
  induction runs as [|[id i] runs IH]; intros ss p H; [exact H|].
  cbn [server_run].
  pose proof (main_models MODELS_AVAILABLE world i (ss id) p) as M.
  destruct (main MODELS_AVAILABLE world i (ss id) p) as [[s' p'] pg].
  cbn [fst snd] in M. apply IH.
  destruct H as (H0 & H1 & H2).
  destruct M as [[Em ->]|[Hn E]].
  - split; [exact H0|]. split; [exact H1|].
    intros id' m'. unfold set_session.
    destruct (Nat.eqb id' id); [rewrite Em|]; apply H2.
  - unfold load_models in E.
    destruct (cache_resource p) as [value|] eqn:C.
    + injection E as Em ->. rewrite C.
      split; [discriminate|]. split; [exact H1|].
      intros id' m'. unfold set_session.
      destruct (Nat.eqb id' id); [|apply H2].
      rewrite Em. now intros ->.
    + injection E as Em ->. cbn [cache_resource body_runs].
      pose proof (H0 eq_refl) as B.
      split; [discriminate|]. split; [lia|].
      intros id' m'. unfold set_session.
      destruct (Nat.eqb id' id).
      * rewrite Em. now intros ->.
      * intros X. apply H2 in X. discriminate X.
Qed.

(** X18: on one server process, whatever any number of sessions do, the
    body of [load_models] runs at most once, and all sessions that have
    models hold the same dictionary, the one in the cache. *)
Theorem models_are_built_once_and_shared {libs : Libraries}
  (MODELS_AVAILABLE : bool) (world : nat -> provider)
  (runs : list (nat * interaction)) :
  let ss := fst (server_run MODELS_AVAILABLE world runs all_new fresh_process) in
  let p := snd (server_run MODELS_AVAILABLE world runs all_new fresh_process) in
  body_runs p <= 1
  /\ forall id id' m m',
       models (ss id) = Some m -> models (ss id') = Some m' ->
       m = m' /\ cache_resource p = Some (Some m).
Proof.
  intros ss p.
  destruct (server_run_shared MODELS_AVAILABLE world runs all_new fresh_process)
    as (_ & H1 & H2).
  { split; [reflexivity|]. split; [simpl; lia|]. intros id m H. discriminate H. }
  fold ss p in H1, H2. split; [exact H1|].
  intros id id' m m' Hm Hm'.
  pose proof (H2 id m Hm) as C. pose proof (H2 id' m' Hm') as C'.
  split; [congruence|exact C].
Qed.

Lemma models_are_built_once_and_shared_witness :
  let click := {| initialize_clicked := true; selected := Home |} in
  let ss := fst (@server_run plain_text_only true (fun _ => working_provider)
                   [(0, click); (1, click)] all_new fresh_process) in
  exists m, models (ss 0) = Some m /\ models (ss 1) = Some m.
Proof.
  intros click ss.
  assert (H0 : models (ss 0) = Some (demo_models (9 # 10))) by reflexivity.
  assert (H1 : exists m', models (ss 1) = Some m') by (eexists; reflexivity).
  destruct H1 as [m' H1].
  destruct (proj2 (@models_are_built_once_and_shared plain_text_only true
                     (fun _ => working_provider) [(0, click); (1, click)])
                  0 1 _ _ H0 H1) as [E _].
  exists (demo_models (9 # 10)). split; [exact H0|]. rewrite E. exact H1.
Defined.

Lemma main_unavailable {libs : Libraries} (world : nat -> provider)
  (i : interaction) (s : session_state) (p : process) :
  models s = None ->
  fst (main false world i s p) = (s, p)
  /\ match snd (main false world i s p) with
     | QuestionPage r => view r = ModelsNotInitialized /\ dispatched r = []
     | QuizPage v => v = QuizModelsNotInitialized
     | SummaryPage r =>
         summary_page r = SummaryModelsNotInitialized /\ summarized r = []
     | HomePage | DashboardPage => True
     end.
Proof.
  intros H. unfold main, sidebar. rewrite H. cbn [andb].
  destruct (selected i) as [|uf q c|uf n c|inp a b c|]; cbn [fst snd];
    try (now split).
  - unfold question_answering_interface. rewrite H. now split.
  - unfold quiz_interface. now rewrite H.
  - unfold summarization_interface. rewrite H. now split.
Qed.

(** X19: when the model packages are not installed, no session ever gets
    models and the loader is never called; the question, quiz and
    summary pages only ask for the models to be initialized and call
    no model. *)
Theorem nothing_runs_without_packages {libs : Libraries}
  (world : nat -> provider) (runs : list interaction) (p : process)
  (i : interaction) :
  let s := fst (session_run false world runs new_session p) in
  models s = None
  /\ snd (session_run false world runs new_session p) = p
  /\ match snd (main false world i s p) with
     | QuestionPage r => view r = ModelsNotInitialized /\ dispatched r = []
     | QuizPage v => v = QuizModelsNotInitialized
     | SummaryPage r =>
         summary_page r = SummaryModelsNotInitialized /\ summarized r = []
     | HomePage | DashboardPage => True
     end.
Proof.
  assert (G : forall s0, models s0 = None ->
            models (fst (session_run false world runs s0 p)) = None
            /\ snd (session_run false world runs s0 p) = p).
  { induction runs as [|j runs IH]; intros s0 H; [now split|].
    cbn [session_run].
    destruct (main_unavailable world j s0 p H) as [E _].
    destruct (main false world j s0 p) as [[s' p'] pg]. cbn [fst] in E.
    injection E as -> ->. now apply IH. }
  intros s. destruct (G new_session eq_refl) as [Hm Hp].
  split; [exact Hm|]. split; [exact Hp|].
  apply main_unavailable. exact Hm.
Qed.

End SessionFacts.
